(** * genltest: a Generic Netlink echo family and its libnl client

    Shallow embedding of [ks/genltest.c] (the kernel module), [ks/genltest.h]
    (the constants shared by both ends) and [us/genltest.c] (the client).

    - [Wire]: the netlink attribute records both ends exchange.
    - [KS]: the kernel module: [echo_doit], [echo_ping], [ping_store],
      [init_genltest], [exit_genltest].
    - [US]: the client: [echo_reply_handler], [send_echo_msg], [conn],
      [disconn], [set_cb], [main].
    - [WireFacts], [KSFacts], [USFacts]: what is proved of each.

    The netlink calls of the kernel and of libnl are not part of the
    repository; each is modelled next to its first use, with what it may
    answer taken from an environment record ([KS.kenv], [US.uenv]).

    C integers are [Z]; bytes are [Byte.byte]; a pointer into a message
    buffer is the list of the bytes from the pointed one to the end of the
    buffer; effects are recorded, newest first, in a trace of events that a
    small state monad threads through the calls. *)

From Stdlib Require Import String ZArith List Bool Lia.
From Stdlib.Strings Require Import Byte.
Import ListNotations.
Open Scope Z_scope.

(** ** Constants of [ks/genltest.h] *)

Definition GENLTEST_GENL_NAME : string := "genltest".
Definition GENLTEST_GENL_VERSION : Z := 1.
Definition GENLTEST_MC_GRP_NAME : string := "mcgrp".

(** [enum genltest_attrs] *)
Definition GENLTEST_A_UNSPEC : Z := 0.
Definition GENLTEST_A_MSG : Z := 1.
Definition __GENLTEST_A_MAX : Z := 2.
Definition GENLTEST_A_MAX : Z := __GENLTEST_A_MAX - 1.

(** [enum genltest_cmds] *)
Definition GENLTEST_CMD_UNSPEC : Z := 0.
Definition GENLTEST_CMD_ECHO : Z := 1.
Definition __GENLTEST_CMD_MAX : Z := 2.
Definition GENLTEST_CMD_MAX : Z := __GENLTEST_CMD_MAX - 1.

(** ** C strings and C arrays *)

(** The bytes a [char *] designates when read as a string: those before the
    first NUL of the memory it points into. *)
Fixpoint c_str (mem : list byte) : list byte :=
  match mem with
  | [] => []
  | b :: mem' => if Byte.eqb b x00 then [] else b :: c_str mem'
  end.

Definition strlen (mem : list byte) : Z := Z.of_nat (length (c_str mem)).

(** The memory of a string literal: its characters and the terminator. *)
Definition literal (s : string) : list byte := list_byte_of_string s ++ [x00].

(** A string in the C sense holds no NUL. *)
Definition nul_free (s : list byte) : Prop := Forall (fun b => b <> x00) s.

(** [tb[i] = v] on an array of pointers; the callers index within bounds. *)
Fixpoint array_set {A} (tb : list A) (i : nat) (v : A) : list A :=
  match tb, i with
  | [], _ => []
  | _ :: tb', O => v :: tb'
  | a :: tb', S i' => a :: array_set tb' i' v
  end.

Definition array_get {A} (tb : list (option A)) (i : Z) : option A :=
  nth (Z.to_nat i) tb None.

(** Conversion to [int] (32 bits, two's complement). *)
Definition to_int (z : Z) : Z := (z + 2 ^ 31) mod 2 ^ 32 - 2 ^ 31.

(** ** The attribute records on the wire *)

Module Wire.

(** Modelled from the spec: the attribute codec ([nla_put_string],
    [nla_parse], [nla_get_string]) is library code that src/ calls but does
    not hold.  Sections 4.1 and 6 of the spec give each record as a
    length-prefixed one with an id, a length and the payload bytes, the
    string kind carrying a trailing zero byte that the length includes; the
    widths (two 16-bit fields, length first, in host order, here
    little-endian), the 14-bit type mask and the 4-byte alignment are those
    of [struct nlattr], which both libraries share. *)
Definition NLA_ALIGNTO : Z := 4.

Definition NLA_ALIGN (len : Z) : Z :=
  Z.land (len + NLA_ALIGNTO - 1) (Z.lnot (NLA_ALIGNTO - 1)).

Definition NLA_HDRLEN : Z := NLA_ALIGN 4.

Definition NLA_TYPE_MASK : Z := 16383.

Definition nla_attr_size (payload : Z) : Z := NLA_HDRLEN + payload.
Definition nla_total_size (payload : Z) : Z := NLA_ALIGN (nla_attr_size payload).
Definition nla_padlen (payload : Z) : Z :=
  nla_total_size payload - nla_attr_size payload.

Definition byte_of_Z (z : Z) : byte :=
  match Byte.of_N (Z.to_N (z mod 256)) with
  | Some b => b
  | None => x00
  end.

Definition Z_of_byte (b : byte) : Z := Z.of_N (Byte.to_N b).

(** Store into, and load from, a [__u16] field. *)
Definition put_u16 (z : Z) : list byte := [byte_of_Z z; byte_of_Z (z / 256)].

Definition get_u16 (mem : list byte) : Z :=
  match mem with
  | b0 :: b1 :: _ => Z_of_byte b0 + 256 * Z_of_byte b1
  | _ => 0
  end.

(** Modelled from the spec: what [nla_put] appends for a payload of
    [attrlen] bytes read at [data] (absent library code): the header, the
    payload and the zeroed padding. *)
Definition nlattr_bytes (attrtype attrlen : Z) (data : list byte) : list byte :=
  put_u16 (nla_attr_size attrlen) ++ put_u16 attrtype
  ++ firstn (Z.to_nat attrlen) data
  ++ repeat x00 (Z.to_nat (nla_padlen attrlen)).

(** Modelled from the spec: the accessors of a [struct nlattr *] (absent
    library code). *)
Definition nla_len (nla : list byte) : Z := get_u16 nla.
Definition nla_type (nla : list byte) : Z :=
  Z.land (get_u16 (skipn 2 nla)) NLA_TYPE_MASK.
Definition nla_data (nla : list byte) : list byte :=
  skipn (Z.to_nat NLA_HDRLEN) nla.
Definition nla_get_string (nla : list byte) : list byte := c_str (nla_data nla).

Definition nla_ok (nla : list byte) (remaining : Z) : bool :=
  (4 <=? remaining) && (4 <=? nla_len nla) && (nla_len nla <=? remaining).

Definition nla_next (nla : list byte) (remaining : Z) : list byte * Z :=
  let totlen := NLA_ALIGN (nla_len nla) in
  (skipn (Z.to_nat totlen) nla, remaining - totlen).

(** Modelled from the spec: the loop of [nla_parse] without a policy, as the
    client calls it (absent library code): every record whose type is at
    most [maxtype] is stored under its type, a later one replacing an
    earlier one; records of a larger type are skipped.  Each round consumes
    at least four bytes, so [fuel] rounds suffice for [fuel] remaining
    bytes. *)
Fixpoint nla_for_each_attr (fuel : nat) (maxtype : Z) (nla : list byte)
    (rem : Z) (tb : list (option (list byte))) : list (option (list byte)) :=
  match fuel with
  | O => tb
  | S fuel' =>
      if nla_ok nla rem then
        let type := nla_type nla in
        let tb' := if type >? maxtype then tb
                   else array_set tb (Z.to_nat type) (Some nla) in
        let '(nla', rem') := nla_next nla rem in
        nla_for_each_attr fuel' maxtype nla' rem' tb'
      else tb
  end.

Definition nla_parse (maxtype : Z) (head : list byte) (len : Z)
    : Z * list (option (list byte)) :=
  (0, nla_for_each_attr (Z.to_nat len) maxtype head len
        (repeat None (Z.to_nat (maxtype + 1)))).

(** The two headers in front of the attributes; their sizes are those of
    [struct nlmsghdr] and [struct genlmsghdr]. *)
Definition NLMSG_ALIGN (len : Z) : Z := Z.land (len + 4 - 1) (Z.lnot (4 - 1)).
Definition NLMSG_HDRLEN : Z := NLMSG_ALIGN 16.
Definition GENL_HDRLEN : Z := NLMSG_ALIGN 4.
Definition nlmsg_msg_size (payload : Z) : Z := NLMSG_HDRLEN + payload.
Definition nlmsg_total_size (payload : Z) : Z := NLMSG_ALIGN (nlmsg_msg_size payload).
Definition genlmsg_msg_size (payload : Z) : Z := GENL_HDRLEN + payload.
Definition genlmsg_total_size (payload : Z) : Z := NLMSG_ALIGN (genlmsg_msg_size payload).

Record nlmsghdr := {
  nlmsg_len : Z;
  nlmsg_type : Z;
  nlmsg_flags : Z;
  nlmsg_seq : Z;
  nlmsg_pid : Z
}.

Record genlmsghdr := {
  genl_cmd : Z;
  genl_version : Z;
  genl_reserved : Z
}.

(** A message as it travels: the headers and the attribute bytes. *)
Record message := {
  msg_nlh : nlmsghdr;
  msg_gnlh : genlmsghdr;
  msg_attrs : list byte
}.

(** The largest payload whose record length still fits the 16-bit field. *)
Definition NLA_PAYLOAD_MAX : Z := 65535 - NLA_HDRLEN.

(** The mapping a receiver reads off an attribute buffer: the string under
    each attribute id. *)
Definition decode (buf : list byte) : list (option (list byte)) :=
  map (option_map nla_get_string)
      (snd (nla_parse GENLTEST_A_MAX buf (Z.of_nat (length buf)))).

(** The record a sender appends for the string at [str]. *)
Definition encode (attrtype : Z) (str : list byte) : list byte :=
  nlattr_bytes attrtype (strlen str + 1) str.

End Wire.

(** ** The kernel module, [ks/genltest.c] *)

Module KS.
Import Wire.

Definition ENOENT : Z := 2.
Definition ESRCH : Z := 3.
Definition EINVAL : Z := 22.
Definition EOPNOTSUPP : Z := 95.
Definition ENOMEM : Z := 12.
Definition EBUSY : Z := 16.
Definition EMSGSIZE : Z := 90.
Definition ENOBUFS : Z := 105.

Definition MSG_MAX_LEN : Z := 1024.

(** A message buffer: which allocation it is, the two headers once
    [genlmsg_put] has written them, the attribute bytes put after them and
    the room left at the tail. *)
Record sk_buff := {
  skb_id : nat;
  skb_hdr : option (nlmsghdr * genlmsghdr);
  skb_attrs : list byte;
  skb_tailroom : Z
}.

(** What the dispatcher hands to a handler: [info->snd_seq],
    [info->snd_portid] and the table [info->attrs]. *)
Record genl_info := {
  snd_seq : Z;
  snd_portid : Z;
  attrs : list (option (list byte))
}.

Inductive nla_type_t := NLA_UNSPEC | NLA_NUL_STRING.
Record nla_policy := { type : nla_type_t }.

Record genl_multicast_group := { mcgrp_name : string }.

(** [struct genl_family] as the module fills it; [.ops] is the table
    [genl_ops] below, whose handler refers back to the family. *)
Record genl_family := {
  name : string;
  version : Z;
  maxattr : Z;
  n_ops : Z;
  mcgrps : list genl_multicast_group;
  n_mcgrps : Z
}.

Inductive gfp_t := GFP_KERNEL.
Inductive level := KERN_INFO | KERN_WARNING | KERN_ERR | KERN_CRIT.

(** How one listener of the group takes a broadcast: it queues the message,
    drops it silently, or drops it and asks for the error to be reported. *)
Inductive delivery := Queued | Dropped | DroppedReported.

Inductive event :=
| Printk (lvl : level) (fmt : string) (args : list (list byte))
| SkbAlloc (id : nat)
| SkbFree (id : nat)
| MsgCancel (id : nat)
| MsgEnd (id : nat)
| Unicast (skb : sk_buff) (portid : Z)
| Multicast (skb : sk_buff) (portid group : Z)
| KobjCreate (kname : string)
| KobjPut
| SysfsCreate (fname : string)
| SysfsRemove (fname : string)
| Register (fname : string)
| Unregister (fname : string).

(** The module's only variable, [static struct kobject *kobj], and what has
    happened so far, newest event first. *)
Record world := {
  kobj : option string;
  trace : list event
}.

(** What the rest of the kernel decides. *)
Record kenv := {
  NLMSG_DEFAULT_SIZE : Z;
  alloc_skb : Z -> option Z;
  family_id : Z;
  netlink_unicast_ret : Z;
  listeners : list (Z * delivery);
  kobject_create_ok : bool;
  sysfs_create_file_ret : Z;
  genl_register_family_ret : Z;
  genl_unregister_family_ret : Z
}.

Definition K (A : Type) : Type := world -> A * world.
Definition ret {A} (a : A) : K A := fun w => (a, w).
Definition bind {A B} (m : K A) (f : A -> K B) : K B :=
  fun w => let '(a, w') := m w in f a w'.

Declare Scope k_scope.
Delimit Scope k_scope with K.
Notation "x <- m ;; k" := (bind m (fun x => k))
  (at level 61, m at next level, right associativity) : k_scope.
Notation "m ;;; k" := (bind m (fun _ => k))
  (at level 61, right associativity) : k_scope.
Open Scope k_scope.

Definition emit (e : event) : K unit :=
  fun w => (tt, {| kobj := kobj w; trace := e :: trace w |}).

Definition pr_info (fmt : string) (args : list (list byte)) : K unit :=
  emit (Printk KERN_INFO fmt args).
Definition pr_warn (fmt : string) (args : list (list byte)) : K unit :=
  emit (Printk KERN_WARNING fmt args).
Definition pr_err (fmt : string) (args : list (list byte)) : K unit :=
  emit (Printk KERN_ERR fmt args).
Definition pr_crit (fmt : string) (args : list (list byte)) : K unit :=
  emit (Printk KERN_CRIT fmt args).

(** State of the kernel read off the trace. *)
Fixpoint registered (t : list event) : bool :=
  match t with
  | [] => false
  | Register _ :: _ => true
  | Unregister _ :: _ => false
  | _ :: t' => registered t'
  end.

Fixpoint file_exists (t : list event) : bool :=
  match t with
  | [] => false
  | SysfsCreate _ :: _ => true
  | SysfsRemove _ :: _ => false
  | KobjPut :: _ => false
  | _ :: t' => file_exists t'
  end.

Definition is_alloc (e : event) : bool :=
  match e with SkbAlloc _ => true | _ => false end.

(** The next allocation is numbered by how many came before. *)
Definition fresh (t : list event) : nat := length (filter is_alloc t).

Section Kernel.
Variable env : kenv.

(** Modelled from the spec: section 4.2, [begin ... fails with
    AllocationFailure if buffer space cannot be reserved]; [nlmsg_new] is
    kernel code absent from src/.  The allocator is asked for
    [nlmsg_total_size payload] bytes and answers with no buffer or with one
    of some tailroom. *)
Definition nlmsg_new (payload : Z) (flags : gfp_t) : K (option sk_buff) :=
  fun w =>
    match alloc_skb env (nlmsg_total_size payload) with
    | None => (None, w)
    | Some room =>
        let id := fresh (trace w) in
        (Some {| skb_id := id; skb_hdr := None; skb_attrs := [];
                 skb_tailroom := room |},
         {| kobj := kobj w; trace := SkbAlloc id :: trace w |})
    end.

Definition genlmsg_new (payload : Z) (flags : gfp_t) : K (option sk_buff) :=
  nlmsg_new (genlmsg_total_size payload) flags.

(** Modelled from the spec: section 4.2, [begin] reserves the transport
    header and the protocol sub-header (absent kernel code).  [None] is the
    NULL header of a buffer without room; otherwise the buffer now holds a
    header for [portid], [seq], the family's id and version and [cmd]. *)
Definition genlmsg_put (skb : sk_buff) (portid seq : Z) (family : genl_family)
    (flags cmd : Z) : option sk_buff :=
  if skb_tailroom skb <? nlmsg_total_size GENL_HDRLEN then None
  else Some {| skb_id := skb_id skb;
               skb_hdr := Some ({| nlmsg_len := nlmsg_msg_size GENL_HDRLEN;
                                   nlmsg_type := family_id env;
                                   nlmsg_flags := flags;
                                   nlmsg_seq := seq;
                                   nlmsg_pid := portid |},
                                {| genl_cmd := cmd;
                                   genl_version := version family;
                                   genl_reserved := 0 |});
               skb_attrs := skb_attrs skb;
               skb_tailroom := skb_tailroom skb - nlmsg_total_size GENL_HDRLEN |}.

(** Modelled from the spec: section 4.1, [encode] appends a record to the
    buffer (absent kernel code); it fails with [-EMSGSIZE] when the record
    does not fit the tailroom. *)
Definition nla_put (skb : sk_buff) (attrtype attrlen : Z) (data : list byte)
    : Z * sk_buff :=
  if skb_tailroom skb <? nla_total_size attrlen then (- EMSGSIZE, skb)
  else (0, {| skb_id := skb_id skb;
              skb_hdr := skb_hdr skb;
              skb_attrs := skb_attrs skb ++ nlattr_bytes attrtype attrlen data;
              skb_tailroom := skb_tailroom skb - nla_total_size attrlen |}).

Definition nla_put_string (skb : sk_buff) (attrtype : Z) (str : list byte)
    : Z * sk_buff :=
  nla_put skb attrtype (strlen str + 1) str.

(** Modelled from the spec: section 4.2, [cancel] releases the partially
    built state (absent kernel code): the message is trimmed back to where
    its header began. *)
Definition genlmsg_cancel (skb : sk_buff) : K sk_buff :=
  emit (MsgCancel (skb_id skb)) ;;;
  ret {| skb_id := skb_id skb; skb_hdr := None; skb_attrs := [];
         skb_tailroom := skb_tailroom skb + nlmsg_total_size GENL_HDRLEN
                         + Z.of_nat (length (skb_attrs skb)) |}.

(** Modelled from the spec: section 4.2, [finalize] fixes the total length
    field of the header (absent kernel code). *)
Definition genlmsg_end (skb : sk_buff) : K sk_buff :=
  emit (MsgEnd (skb_id skb)) ;;;
  ret {| skb_id := skb_id skb;
         skb_hdr := match skb_hdr skb with
                    | Some (nlh, gh) =>
                        Some ({| nlmsg_len := nlmsg_msg_size GENL_HDRLEN
                                              + Z.of_nat (length (skb_attrs skb));
                                 nlmsg_type := nlmsg_type nlh;
                                 nlmsg_flags := nlmsg_flags nlh;
                                 nlmsg_seq := nlmsg_seq nlh;
                                 nlmsg_pid := nlmsg_pid nlh |}, gh)
                    | None => None
                    end;
         skb_attrs := skb_attrs skb;
         skb_tailroom := skb_tailroom skb |}.

Definition nlmsg_free (skb : sk_buff) : K unit := emit (SkbFree (skb_id skb)).

(** Modelled from the spec: section 4.4 step 5, the point-to-point send
    primitive (absent kernel code).  It takes the buffer over whatever the
    outcome, and a positive result of the socket layer is reported as 0. *)
Definition genlmsg_reply (skb : sk_buff) (info : genl_info) : K Z :=
  emit (Unicast skb (snd_portid info)) ;;;
  ret (if netlink_unicast_ret env >? 0 then 0 else netlink_unicast_ret env).

Definition is_reported (l : Z * delivery) : bool :=
  match snd l with DroppedReported => true | _ => false end.
Definition is_queued (l : Z * delivery) : bool :=
  match snd l with Queued => true | _ => false end.

(** Modelled from the spec: section 4.5, delivery to every current
    subscriber (absent kernel code), telling apart a reported delivery
    failure ([-ENOBUFS]), delivery to at least one listener (0) and no
    delivery at all ([-ESRCH]).  It takes the buffer over. *)
Definition genlmsg_multicast (family : genl_family) (skb : sk_buff)
    (portid group : Z) (flags : gfp_t) : K Z :=
  emit (Multicast skb portid group) ;;;
  ret (if existsb is_reported (listeners env) then - ENOBUFS
       else if existsb is_queued (listeners env) then 0
       else - ESRCH).

(** Forward declaration: [static struct genl_family genl_fam] *)
Definition genl_fam : genl_family :=
  {| name := GENLTEST_GENL_NAME;
     version := GENLTEST_GENL_VERSION;
     maxattr := GENLTEST_A_MAX;
     n_ops := 1;
     mcgrps := [ {| mcgrp_name := GENLTEST_MC_GRP_NAME |} ];
     n_mcgrps := 1 |}.

(** Handler for GENLTEST_CMD_ECHO messages received.  [pr_fmt] prefixes
    every line with the module's name, which the trace leaves out. *)
Definition echo_doit (skb : sk_buff) (info : genl_info) : K Z :=
  (* Check if the attribute is present and print it *)
  match array_get (attrs info) GENLTEST_A_MSG with
  | Some a =>
      let str := nla_data a in
      pr_info "message received: %s\n" [c_str str]
  | None => pr_info "empty message received\n" []
  end ;;;
  (* Allocate a new buffer for the reply *)
  msg <- nlmsg_new (NLMSG_DEFAULT_SIZE env) GFP_KERNEL ;;
  match msg with
  | None =>
      pr_err "failed to allocate message buffer\n" [] ;;;
      ret (- ENOMEM)
  | Some msg =>
      (* Put the Generic Netlink header *)
      match genlmsg_put msg (snd_portid info) (snd_seq info) genl_fam 0
                        GENLTEST_CMD_ECHO with
      | None =>
          pr_err "failed to create genetlink header\n" [] ;;;
          nlmsg_free msg ;;;
          ret (- EMSGSIZE)
      | Some msg =>
          (* And the message *)
          let '(r, msg) := nla_put_string msg GENLTEST_A_MSG
                             (literal "Hello from Kernel Space, Netlink!") in
          if negb (r =? 0) then
            pr_err "failed to create message string\n" [] ;;;
            msg <- genlmsg_cancel msg ;;
            nlmsg_free msg ;;;
            ret r
          else
            (* Finalize the message and send it *)
            msg <- genlmsg_end msg ;;
            r <- genlmsg_reply msg info ;;
            pr_info "reply sent\n" [] ;;;
            ret r
      end
  end.

(** Attribute validation policy for our echo command *)
Definition echo_pol : list nla_policy :=
  [ {| type := NLA_UNSPEC |}; {| type := NLA_NUL_STRING |} ].

(** Operations for our Generic Netlink family *)
Record genl_ops_t := {
  cmd : Z;
  policy : list nla_policy;
  doit : sk_buff -> genl_info -> K Z
}.

Definition genl_ops : list genl_ops_t :=
  [ {| cmd := GENLTEST_CMD_ECHO; policy := echo_pol; doit := echo_doit |} ].

(** Modelled from the spec: section 3, [an Envelope's attribute set must
    satisfy its Command's Attribute Policy before a Handler runs], and
    section 4.1, the string kind [requires the last content byte be the
    terminator]; the validation is kernel code absent from src/.  Only an
    attribute that is present is checked against its declared kind. *)
Definition validate_nla (pt : nla_policy) (nla : list byte) : bool :=
  match type pt with
  | NLA_UNSPEC => true
  | NLA_NUL_STRING =>
      match rev (firstn (Z.to_nat (nla_len nla - NLA_HDRLEN)) (nla_data nla)) with
      | b :: _ => Byte.eqb b x00
      | [] => false
      end
  end.

Definition policy_accepts (pol : list nla_policy)
    (tb : list (option (list byte))) : bool :=
  forallb (fun pa => match snd pa with
                     | None => true
                     | Some nla => validate_nla (fst pa) nla
                     end) (combine pol tb).

(** Modelled from the spec: section 4.4 steps 2 to 4, the dispatcher
    (kernel code absent from src/): an unknown command and a policy
    violation fail without a reply, otherwise the bound handler runs. *)
Definition dispatch (command : Z) (skb : sk_buff) (info : genl_info) : K Z :=
  match find (fun op => cmd op =? command) genl_ops with
  | None => ret (- EOPNOTSUPP)
  | Some op =>
      if policy_accepts (policy op) (attrs info) then doit op skb info
      else ret (- EINVAL)
  end.

(** Multicast ping message to our genl multicast group *)
Definition echo_ping (buf : list byte) (cnt : Z) : K Z :=
  (* Allocate message buffer *)
  skb <- genlmsg_new (NLMSG_DEFAULT_SIZE env) GFP_KERNEL ;;
  match skb with
  | None =>
      pr_err "failed to allocate memory for genl message\n" [] ;;;
      ret (- ENOMEM)
  | Some skb =>
      (* Put the Generic Netlink header *)
      match genlmsg_put skb 0 0 genl_fam 0 GENLTEST_CMD_ECHO with
      | None =>
          pr_err "failed to allocate memory for genl header\n" [] ;;;
          nlmsg_free skb ;;;
          ret (- ENOMEM)
      | Some skb =>
          (* And the message *)
          let '(r, skb) := nla_put_string skb GENLTEST_A_MSG buf in
          if negb (r =? 0) then
            pr_err "unable to create message string\n" [] ;;;
            skb <- genlmsg_cancel skb ;;
            nlmsg_free skb ;;;
            ret r
          else
            (* Finalize the message *)
            skb <- genlmsg_end skb ;;
            (* Send it over multicast to the 0-th mc group in our array. *)
            r <- genlmsg_multicast genl_fam skb 0 0 GFP_KERNEL ;;
            (if r =? - ESRCH then
               pr_warn "multicast message sent, but nobody was listening...\n" []
             else if negb (r =? 0) then
               pr_err "failed to send multicast genl message\n" []
             else
               pr_info "multicast message sent\n" []) ;;;
            ret r
      end
  end.

(** Test sysfs attr to send multicast messages.  [buf] is the memory the
    write handed over, [cnt] the number of bytes written ([size_t]); the
    unused [kobj] and [attr] arguments are left out. *)
Definition ping_store (buf : list byte) (cnt : Z) : K Z :=
  let max := to_int (if cnt >? MSG_MAX_LEN then MSG_MAX_LEN else cnt) in
  echo_ping buf max ;;;
  ret max.

(** [static struct kobj_attribute ping_attr = __ATTR_WO(ping)] *)
Definition ping_attr : string := "ping".

Definition get_kobj : K (option string) := fun w => (kobj w, w).
Definition set_kobj (k : option string) : K unit :=
  fun w => (tt, {| kobj := k; trace := trace w |}).

(** Modelled from the spec: section 4.3, the supporting resource of the
    handlers and the two-state registry (kernel code absent from src/).
    Creation, registration and unregistration succeed or fail as the kernel
    decides.  A failed registration leaves the state unchanged.  When the
    transport refuses to remove a registered family, [unregister] fails
    and the family lingers, registered; a family that is not registered
    cannot be removed and the call fails with [-ENOENT]. *)
Definition kobject_create_and_add (kname : string) (parent : option string)
    : K (option string) :=
  if kobject_create_ok env then emit (KobjCreate kname) ;;; ret (Some kname)
  else ret None.

Definition kobject_put (k : option string) : K unit := emit KobjPut.

Definition sysfs_create_file (k : option string) (attr : string) : K Z :=
  if sysfs_create_file_ret env =? 0 then emit (SysfsCreate attr) ;;; ret 0
  else ret (sysfs_create_file_ret env).

Definition sysfs_remove_file (k : option string) (attr : string) : K unit :=
  emit (SysfsRemove attr).

Definition genl_register_family (family : genl_family) : K Z :=
  if genl_register_family_ret env =? 0 then
    emit (Register (name family)) ;;; ret 0
  else ret (genl_register_family_ret env).

Definition genl_unregister_family (family : genl_family) : K Z :=
  fun w =>
    if registered (trace w) then
      if genl_unregister_family_ret env =? 0 then
        (0, snd (emit (Unregister (name family)) w))
      else (genl_unregister_family_ret env, w)
    else (- ENOENT, w).

Definition init_genltest : K Z :=
  pr_info "init start\n" [] ;;;
  parent <- get_kobj ;;
  k <- kobject_create_and_add "genltest" parent ;;
  set_kobj k ;;;
  match k with
  | None =>
      pr_err "unable to create kobject\n" [] ;;;
      ret (- ENOMEM)
  | Some _ =>
      r <- sysfs_create_file k ping_attr ;;
      if negb (r =? 0) then
        pr_err "unable to create sysfs file\n" [] ;;;
        kobject_put k ;;;
        ret r
      else
        r <- genl_register_family genl_fam ;;
        (if negb (r =? 0) then
           pr_crit "failed to register generic netlink family\n" [] ;;;
           sysfs_remove_file k ping_attr ;;;
           kobject_put k
         else ret tt) ;;;
        pr_info "init end\n" [] ;;;
        ret r
  end.

(** [void]: the result is [tt]. *)
Definition exit_genltest : K unit :=
  r <- genl_unregister_family genl_fam ;;
  (if negb (r =? 0) then
     pr_err "failed to unregister generic netlink family\n" []
   else ret tt) ;;;
  k <- get_kobj ;;
  sysfs_remove_file k ping_attr ;;;
  kobject_put k ;;;
  pr_info "exit\n" [].

End Kernel.

(** *** Runs and what is observed of them *)

(** What happens between loading and unloading the module: writes to the
    trigger file and ECHO requests, each under what the kernel decides at
    that time. *)
Inductive op :=
| Write (env : kenv) (buf : list byte) (cnt : Z)
| Request (env : kenv) (skb : sk_buff) (info : genl_info).

Definition run_op (o : op) : K Z :=
  match o with
  | Write env buf cnt => ping_store env buf cnt
  | Request env skb info => echo_doit env skb info
  end.

Fixpoint run_ops (ops : list op) : K unit :=
  match ops with
  | [] => ret tt
  | o :: ops' => run_op o ;;; run_ops ops'
  end.

(** The module is loaded, serves [ops] if loading succeeded, and is
    unloaded; a module whose initialisation failed is never unloaded. *)
Definition lifecycle (env : kenv) (ops : list op) : K Z :=
  r <- init_genltest env ;;
  if r =? 0 then run_ops ops ;;; exit_genltest env ;;; ret r
  else ret r.

Definition boot : world := {| kobj := None; trace := [] |}.

(** A property of the state holds at every moment of a trace. *)
Fixpoint always (P : list event -> Prop) (t : list event) : Prop :=
  match t with
  | [] => P []
  | _ :: t' => P t /\ always P t'
  end.

(** The family is never registered without the trigger file. *)
Definition file_backs_family (t : list event) : Prop :=
  registered t = true -> file_exists t = true.

Fixpoint unicasts (t : list event) : list (sk_buff * Z) :=
  match t with
  | [] => []
  | Unicast skb portid :: t' => (skb, portid) :: unicasts t'
  | _ :: t' => unicasts t'
  end.

Fixpoint multicasts (t : list event) : list (sk_buff * Z * Z) :=
  match t with
  | [] => []
  | Multicast skb portid group :: t' => (skb, portid, group) :: multicasts t'
  | _ :: t' => multicasts t'
  end.

(** Everything but the log lines. *)
Fixpoint silent (t : list event) : list event :=
  match t with
  | [] => []
  | Printk _ _ _ :: t' => silent t'
  | e :: t' => e :: silent t'
  end.

Definition count (p : event -> bool) (t : list event) : nat :=
  length (filter p t).

Definition is_end (id : nat) (e : event) : bool :=
  match e with MsgEnd i => Nat.eqb i id | _ => false end.
Definition is_free (id : nat) (e : event) : bool :=
  match e with SkbFree i => Nat.eqb i id | _ => false end.
Definition is_handover (id : nat) (e : event) : bool :=
  match e with
  | Unicast skb _ | Multicast skb _ _ => Nat.eqb (skb_id skb) id
  | _ => false
  end.

(** A builder is released through exactly one of the two ways: finalized
    and handed to the transport, or freed. *)
Definition released_once (id : nat) (t : list event) : Prop :=
  (count (is_end id) t = 1 /\ count (is_handover id) t = 1
   /\ count (is_free id) t = 0)%nat
  \/ (count (is_end id) t = 0 /\ count (is_handover id) t = 0
      /\ count (is_free id) t = 1)%nat.

(** The attributes of a message as a receiver decodes them. *)
Definition msg_of (skb : sk_buff) : list (option (list byte)) :=
  decode (skb_attrs skb).

(** What travels when a buffer is sent: its headers and attributes. *)
Definition on_wire (skb : sk_buff) : option message :=
  match skb_hdr skb with
  | Some (nlh, gnlh) =>
      Some {| msg_nlh := nlh; msg_gnlh := gnlh; msg_attrs := skb_attrs skb |}
  | None => None
  end.

Definition hello : list byte :=
  list_byte_of_string "Hello from Kernel Space, Netlink!".

(** The world after the events [l], newest first, have been added. *)
Definition extend (w : world) (l : list event) : world :=
  {| kobj := kobj w; trace := l ++ trace w |}.

(** The line [echo_doit] logs about the request. *)
Definition request_line (info : genl_info) : event :=
  match array_get (attrs info) GENLTEST_A_MSG with
  | Some a => Printk KERN_INFO "message received: %s\n" [c_str (nla_data a)]
  | None => Printk KERN_INFO "empty message received\n" []
  end.

(** A finished message of the family in buffer [id]: addressed to [portid]
    with sequence number [seq], carrying the string at [str] under MSG. *)
Definition envelope (env : kenv) (id : nat) (room portid seq : Z)
    (str : list byte) : sk_buff :=
  {| skb_id := id;
     skb_hdr := Some ({| nlmsg_len := nlmsg_msg_size GENL_HDRLEN
                                      + Z.of_nat (length (encode GENLTEST_A_MSG str));
                         nlmsg_type := family_id env;
                         nlmsg_flags := 0;
                         nlmsg_seq := seq;
                         nlmsg_pid := portid |},
                      {| genl_cmd := GENLTEST_CMD_ECHO;
                         genl_version := GENLTEST_GENL_VERSION;
                         genl_reserved := 0 |});
     skb_attrs := encode GENLTEST_A_MSG str;
     skb_tailroom := room - nlmsg_total_size GENL_HDRLEN
                     - nla_total_size (strlen str + 1) |}.

(** The room a message carrying the string at [str] needs. *)
Definition room_for (str : list byte) : Z :=
  nlmsg_total_size GENL_HDRLEN + nla_total_size (strlen str + 1).

(** What the two send primitives answer under [env]. *)
Definition unicast_status (env : kenv) : Z :=
  if netlink_unicast_ret env >? 0 then 0 else netlink_unicast_ret env.

Definition multicast_status (env : kenv) : Z :=
  if existsb is_reported (listeners env) then - ENOBUFS
  else if existsb is_queued (listeners env) then 0
  else - ESRCH.

(** The line [echo_ping] logs about a send that answered [r]. *)
Definition status_line (r : Z) : event :=
  if r =? - ESRCH then
    Printk KERN_WARNING "multicast message sent, but nobody was listening...\n" []
  else if negb (r =? 0) then
    Printk KERN_ERR "failed to send multicast genl message\n" []
  else Printk KERN_INFO "multicast message sent\n" [].

(** *** Sample runs *)

(** A kernel with 4 KiB pages, where [NLMSG_DEFAULT_SIZE] is 3760, whose
    allocator grants what is asked, with one listener in the group. *)
Definition env_ok : kenv :=
  {| NLMSG_DEFAULT_SIZE := 3760;
     alloc_skb := fun size => Some size;
     family_id := 30;
     netlink_unicast_ret := 60;
     listeners := [(4243, Queued)];
     kobject_create_ok := true;
     sysfs_create_file_ret := 0;
     genl_register_family_ret := 0;
     genl_unregister_family_ret := 0 |}.

(** The same kernel out of memory for message buffers. *)
Definition env_nomem : kenv :=
  {| NLMSG_DEFAULT_SIZE := 3760;
     alloc_skb := fun _ => None;
     family_id := 30;
     netlink_unicast_ret := 60;
     listeners := [(4243, Queued)];
     kobject_create_ok := true;
     sysfs_create_file_ret := 0;
     genl_register_family_ret := 0;
     genl_unregister_family_ret := 0 |}.

(** The same kernel with nobody in the group. *)
Definition env_nobody : kenv :=
  {| NLMSG_DEFAULT_SIZE := 3760;
     alloc_skb := fun size => Some size;
     family_id := 30;
     netlink_unicast_ret := 60;
     listeners := [];
     kobject_create_ok := true;
     sysfs_create_file_ret := 0;
     genl_register_family_ret := 0;
     genl_unregister_family_ret := 0 |}.

(** The same kernel where the one listener overruns and has asked for the
    error to be reported. *)
Definition env_overrun : kenv :=
  {| NLMSG_DEFAULT_SIZE := 3760;
     alloc_skb := fun size => Some size;
     family_id := 30;
     netlink_unicast_ret := 60;
     listeners := [(4243, DroppedReported)];
     kobject_create_ok := true;
     sysfs_create_file_ret := 0;
     genl_register_family_ret := 0;
     genl_unregister_family_ret := 0 |}.

(** The same kernel whose transport refuses to remove the family. *)
Definition env_refuses_unregister : kenv :=
  {| NLMSG_DEFAULT_SIZE := 3760;
     alloc_skb := fun size => Some size;
     family_id := 30;
     netlink_unicast_ret := 60;
     listeners := [(4243, Queued)];
     kobject_create_ok := true;
     sysfs_create_file_ret := 0;
     genl_register_family_ret := 0;
     genl_unregister_family_ret := - EBUSY |}.

(** The buffer of an inbound request, which the handler does not read. *)
Definition request_skb : sk_buff :=
  {| skb_id := 0; skb_hdr := None; skb_attrs := []; skb_tailroom := 0 |}.

(** A request from port 4242 with MSG="ping", and one without MSG. *)
Definition request_ping : genl_info :=
  {| snd_seq := 7; snd_portid := 4242;
     attrs := [None; Some (encode GENLTEST_A_MSG (literal "ping"))] |}.

Definition request_bare : genl_info :=
  {| snd_seq := 8; snd_portid := 4242; attrs := [None; None] |}.

(** What a write of 2000 letters hands to [ping_store]: the bytes written
    and the terminator that sysfs puts after them. *)
Definition write_2000 : list byte := repeat "A"%byte 2000 ++ [x00].

(** Events that touch neither the trigger file nor the registration. *)
Definition neutral (e : event) : bool :=
  match e with
  | KobjCreate _ | KobjPut | SysfsCreate _ | SysfsRemove _
  | Register _ | Unregister _ => false
  | _ => true
  end.

(** Events that create and release the kobject. *)
Definition is_kobj_create (e : event) : bool :=
  match e with KobjCreate _ => true | _ => false end.
Definition is_kobj_put (e : event) : bool :=
  match e with KobjPut => true | _ => false end.

End KS.

(** ** The client, [us/genltest.c] *)

Module US.
Import Wire.

Definition ENOMEM : Z := 12.
Definition EMSGSIZE : Z := 90.
Definition NLE_NOMEM : Z := 5.

Definition NL_OK : Z := 0.
Definition NL_SKIP : Z := 1.
Definition NL_AUTO_PORT : Z := 0.
Definition NL_AUTO_SEQ : Z := 0.

(** A [struct nl_sock *] variable: not yet assigned, NULL, or a socket. *)
Inductive sockp := Uninit | Null | Sock (id : nat).

(** A message under construction: which allocation it is, its header, the
    sub-header once [genlmsg_put] has written it, the attribute bytes and
    the size of its buffer. *)
Record nl_msg := {
  nm_id : nat;
  nm_nlh : nlmsghdr;
  nm_gnlh : option genlmsghdr;
  nm_attrs : list byte;
  nm_size : Z
}.

Inductive arg := Str (s : list byte) | Strerror (e : Z).

Inductive event :=
| Stdout (fmt : string) (args : list arg)
| Stderr (fmt : string) (args : list arg)
| SockAlloc (id : nat)
| SockConnect (id : nat)
| SockClose (id : nat)
| SockFree (id : nat)
| SeqCheckOff (id : nat)
| Join (id : nat) (group : Z)
| CbSet (id : nat)
| MsgAlloc (id : nat)
| MsgFree (id : nat)
| Send (id : nat) (msg : nl_msg)
| Recv (id : nat).

(** What the library and the kernel decide. *)
Record uenv := {
  socket_alloc_ok : nat -> bool;
  genl_connect_ret : nat -> Z;
  genl_ctrl_resolve_ret : Z;
  genl_ctrl_resolve_grp_ret : Z;
  add_membership_ret : Z;
  modify_cb_ret : nat -> Z;
  default_msg_size : option Z;
  nl_send_ret : Z;
  inbox : nat -> nat -> list message
}.

(** A call returns a value, or the program has dereferenced a NULL or
    unassigned socket pointer. *)
Inductive res (A : Type) := Val (a : A) | Fault.
Arguments Val {A} a.
Arguments Fault {A}.

Definition U (A : Type) : Type := list event -> res A * list event.
Definition ret {A} (a : A) : U A := fun t => (Val a, t).
Definition fault {A} : U A := fun t => (Fault, t).
Definition bind {A B} (m : U A) (f : A -> U B) : U B :=
  fun t => match m t with
           | (Val a, t') => f a t'
           | (Fault, t') => (Fault, t')
           end.

Declare Scope u_scope.
Delimit Scope u_scope with U.
Notation "x <- m ;; k" := (bind m (fun x => k))
  (at level 61, m at next level, right associativity) : u_scope.
Notation "' p <- m ;; k" := (bind m (fun x => match x with p => k end))
  (at level 61, p pattern, m at next level, right associativity) : u_scope.
Notation "m ;;; k" := (bind m (fun _ => k))
  (at level 61, right associativity) : u_scope.
Open Scope u_scope.

Definition emit (e : event) : U unit := fun t => (Val tt, e :: t).

(** [printf] and the macro [prerr], which prefixes "error: ". *)
Definition printf (fmt : string) (args : list arg) : U unit :=
  emit (Stdout fmt args).
Definition prerr (fmt : string) (args : list arg) : U unit :=
  emit (Stderr fmt args).

Definition is_sock_alloc (e : event) : bool :=
  match e with SockAlloc _ => true | _ => false end.
Definition is_msg_alloc (e : event) : bool :=
  match e with MsgAlloc _ => true | _ => false end.
Definition is_recv (id : nat) (e : event) : bool :=
  match e with Recv i => Nat.eqb i id | _ => false end.

Fixpoint mapM_ {A} (f : A -> U Z) (l : list A) : U unit :=
  match l with
  | [] => ret tt
  | a :: l' => f a ;;; mapM_ f l'
  end.

Section Client.
Variable env : uenv.

(** Modelled from the spec: section 4.6 step 1, opening a session (library
    code absent from src/).  A socket is allocated or not; connecting
    through a NULL or unassigned pointer is a fault. *)
Definition nl_socket_alloc : U sockp :=
  fun t =>
    let id := length (filter is_sock_alloc t) in
    if socket_alloc_ok env id then (Val (Sock id), SockAlloc id :: t)
    else (Val Null, t).

Definition genl_connect (sk : sockp) : U Z :=
  match sk with
  | Sock id =>
      if genl_connect_ret env id =? 0 then emit (SockConnect id) ;;; ret 0
      else ret (genl_connect_ret env id)
  | _ => fault
  end.

(** Modelled from the spec: section 4.6 step 7, closing a session (library
    code absent from src/).  [nl_close] reads the socket; [nl_socket_free]
    accepts NULL. *)
Definition nl_close (sk : sockp) : U unit :=
  match sk with
  | Sock id => emit (SockClose id)
  | _ => fault
  end.

Definition nl_socket_free (sk : sockp) : U unit :=
  match sk with
  | Sock id => emit (SockFree id)
  | Null => ret tt
  | Uninit => fault
  end.

(** Modelled from the spec: section 4.6 steps 2 to 5 (library code absent
    from src/): each step answers with what the environment decides. *)
Definition genl_ctrl_resolve (sk : sockp) (fname : string) : U Z :=
  match sk with
  | Sock _ => ret (genl_ctrl_resolve_ret env)
  | _ => fault
  end.

Definition nl_socket_disable_seq_check (sk : sockp) : U unit :=
  match sk with
  | Sock id => emit (SeqCheckOff id)
  | _ => fault
  end.

Definition genl_ctrl_resolve_grp (sk : sockp) (fname gname : string) : U Z :=
  match sk with
  | Sock _ => ret (genl_ctrl_resolve_grp_ret env)
  | _ => fault
  end.

Definition nl_socket_add_membership (sk : sockp) (group : Z) : U Z :=
  match sk with
  | Sock id =>
      if add_membership_ret env <? 0 then ret (add_membership_ret env)
      else emit (Join id group) ;;; ret (add_membership_ret env)
  | _ => fault
  end.

Definition nl_socket_modify_cb (sk : sockp) : U Z :=
  match sk with
  | Sock id =>
      if modify_cb_ret env id =? 0 then emit (CbSet id) ;;; ret 0
      else ret (modify_cb_ret env id)
  | _ => fault
  end.

(** Modelled from the spec: section 4.2, the envelope builder of the client
    library (absent from src/).  [nlmsg_alloc] yields no message or one
    holding only its header in a buffer of the default size; [genlmsg_put]
    and [nla_put] fail when the buffer has no room for what they append. *)
Definition nlmsg_alloc : U (option nl_msg) :=
  fun t =>
    match default_msg_size env with
    | None => (Val None, t)
    | Some size =>
        let id := length (filter is_msg_alloc t) in
        (Val (Some {| nm_id := id;
                      nm_nlh := {| nlmsg_len := nlmsg_total_size 0;
                                   nlmsg_type := 0; nlmsg_flags := 0;
                                   nlmsg_seq := 0; nlmsg_pid := 0 |};
                      nm_gnlh := None;
                      nm_attrs := [];
                      nm_size := size |}),
         MsgAlloc id :: t)
    end.

Definition set_len (nlh : nlmsghdr) (len : Z) : nlmsghdr :=
  {| nlmsg_len := len; nlmsg_type := nlmsg_type nlh;
     nlmsg_flags := nlmsg_flags nlh; nlmsg_seq := nlmsg_seq nlh;
     nlmsg_pid := nlmsg_pid nlh |}.

Definition genlmsg_put (msg : nl_msg) (port seq family hdrlen flags cmd
    version : Z) : option nl_msg :=
  let payload := GENL_HDRLEN + hdrlen in
  let tlen := NLMSG_ALIGN payload in
  if tlen + nlmsg_len (nm_nlh msg) >? nm_size msg then None
  else Some {| nm_id := nm_id msg;
               nm_nlh := {| nlmsg_len := nlmsg_len (nm_nlh msg) + tlen;
                            nlmsg_type := family; nlmsg_flags := flags;
                            nlmsg_seq := seq; nlmsg_pid := port |};
               nm_gnlh := Some {| genl_cmd := cmd; genl_version := version;
                                  genl_reserved := 0 |};
               nm_attrs := nm_attrs msg;
               nm_size := nm_size msg |}.

Definition nla_put (msg : nl_msg) (attrtype datalen : Z) (data : list byte)
    : Z * nl_msg :=
  let tlen := NLMSG_ALIGN (nlmsg_len (nm_nlh msg)) + nla_total_size datalen in
  if tlen >? nm_size msg then (- NLE_NOMEM, msg)
  else (0, {| nm_id := nm_id msg;
              nm_nlh := set_len (nm_nlh msg) tlen;
              nm_gnlh := nm_gnlh msg;
              nm_attrs := nm_attrs msg ++ nlattr_bytes attrtype datalen data;
              nm_size := nm_size msg |}).

Definition nla_put_string (msg : nl_msg) (attrtype : Z) (str : list byte)
    : Z * nl_msg :=
  nla_put msg attrtype (strlen str + 1) str.

Definition nlmsg_free (msg : nl_msg) : U unit := emit (MsgFree (nm_id msg)).

(** Modelled from the spec: section 4.6 step 6, sending on a session
    (library code absent from src/): the number of bytes sent or a negative
    error; the message stays the caller's. *)
Definition nl_send_auto (sk : sockp) (msg : nl_msg) : U Z :=
  match sk with
  | Sock id => emit (Send id msg) ;;; ret (nl_send_ret env)
  | _ => fault
  end.

(** Accessors of a received message. *)
Definition genlmsg_attrdata (m : message) (hdrlen : Z) : list byte :=
  skipn (Z.to_nat (NLMSG_ALIGN hdrlen)) (msg_attrs m).
Definition genlmsg_attrlen (m : message) (hdrlen : Z) : Z :=
  nlmsg_len (msg_nlh m) - GENL_HDRLEN - NLMSG_HDRLEN - NLMSG_ALIGN hdrlen.

(** Handler for all received messages from our Generic Netlink family, both
    unicast and multicast. *)
Definition echo_reply_handler (msg : message) : U Z :=
  (* Parse the attributes *)
  let '(err, tb) := nla_parse GENLTEST_A_MAX (genlmsg_attrdata msg 0)
                              (genlmsg_attrlen msg 0) in
  if negb (err =? 0) then
    prerr "unable to parse message: %s\n" [Strerror (- err)] ;;;
    ret NL_SKIP
  else
    (* Check that there's actually a payload *)
    match array_get tb GENLTEST_A_MSG with
    | None =>
        prerr "msg attribute missing from message\n" [] ;;;
        ret NL_SKIP
    | Some a =>
        (* Print it! *)
        printf "message received: %s\n" [Str (nla_get_string a)] ;;;
        ret NL_OK
    end.

(** Modelled from the spec: section 4.6 steps 5 and 6, one round of
    reception (library code absent from src/): the installed callback runs
    once per message that has arrived on the session. *)
Definition nl_recvmsgs_default (sk : sockp) : U Z :=
  match sk with
  | Sock id =>
      fun t =>
        let n := length (filter (is_recv id) t) in
        (emit (Recv id) ;;; mapM_ echo_reply_handler (inbox env id n) ;;; ret 0) t
  | _ => fault
  end.

(** Send (unicast) GENLTEST_CMD_ECHO request message *)
Definition send_echo_msg (sk : sockp) (fam : Z) : U Z :=
  msg <- nlmsg_alloc ;;
  match msg with
  | None => ret (- ENOMEM)
  | Some msg =>
      (* Put the genl header inside message buffer *)
      match genlmsg_put msg NL_AUTO_PORT NL_AUTO_SEQ fam 0 0
                        GENLTEST_CMD_ECHO GENLTEST_GENL_VERSION with
      | None => ret (- EMSGSIZE)
      | Some msg =>
          (* Put the string inside the message. *)
          let '(err, msg) := nla_put_string msg GENLTEST_A_MSG
                               (literal "Hello from User Space, Netlink!") in
          if err <? 0 then ret (- err)
          else
            printf "message sent\n" [] ;;;
            (* Send the message. *)
            err <- nl_send_auto sk msg ;;
            let err := if err >=? 0 then 0 else err in
            nlmsg_free msg ;;;
            ret err
      end
  end.

(** Allocate netlink socket and connect to generic netlink.  The argument
    of the C function is the address of the caller's variable, and the
    result here carries what that variable holds afterwards; the test
    [!sk] looks at that address, which is never NULL. *)
Definition conn : U (Z * sockp) :=
  sk <- nl_socket_alloc ;;
  let address_is_null := false in
  if address_is_null then ret (- ENOMEM, sk)
  else
    r <- genl_connect sk ;;
    ret (r, sk).

(** Disconnect and release socket *)
Definition disconn (sk : sockp) : U unit :=
  nl_close sk ;;;
  nl_socket_free sk.

(** Modify the callback for replies to handle all received messages *)
Definition set_cb (sk : sockp) : U Z := nl_socket_modify_cb sk.

(** The label [out] of [main]. *)
Definition out (r : Z) (ucsk mcsk : sockp) : U (option Z) :=
  disconn ucsk ;;;
  disconn mcsk ;;;
  ret (Some r).

(** Listen for "notifications": [fuel] rounds of the [while (1)] loop. *)
Fixpoint listen (fuel : nat) (mcsk : sockp) : U unit :=
  match fuel with
  | O => ret tt
  | S fuel' => nl_recvmsgs_default mcsk ;;; listen fuel' mcsk
  end.

(** [main] returns [Some r] when the program leaves through [out] with
    status [r], and [None] when it is still in the notification loop after
    [fuel] rounds; the statement [ret = 0] after the loop is never
    reached. *)
Definition main (fuel : nat) : U (option Z) :=
  let r := 1 in
  let ucsk := Uninit in
  let mcsk := Uninit in
  ' (r, ucsk) <- conn ;;
  ' (r, mcsk) <- (if negb (r =? 0) then ret (r, mcsk) else conn) ;;
  if negb (r =? 0) then
    prerr "failed to connect to generic netlink\n" [] ;;;
    out r ucsk mcsk
  else
    (* Resolve the genl family. *)
    fam <- genl_ctrl_resolve ucsk GENLTEST_GENL_NAME ;;
    if fam <? 0 then
      prerr "failed to resolve generic netlink family: %s\n" [Strerror (- fam)] ;;;
      out r ucsk mcsk
    else
      (* Disable sequence checks for asynchronous multicast messages. *)
      nl_socket_disable_seq_check mcsk ;;;
      (* Resolve the multicast group. *)
      mcgrp <- genl_ctrl_resolve_grp mcsk GENLTEST_GENL_NAME
                                     GENLTEST_MC_GRP_NAME ;;
      if mcgrp <? 0 then
        prerr "failed to resolve generic netlink multicast group: %s\n"
              [Strerror (- mcgrp)] ;;;
        out r ucsk mcsk
      else
        (* Join the multicast group. *)
        m <- nl_socket_add_membership mcsk mcgrp ;;
        let r := if m <? 0 then 1 else 0 in
        if negb (r =? 0) then
          prerr "failed to join multicast group: %s\n" [Strerror (- r)] ;;;
          out r ucsk mcsk
        else
          r <- set_cb ucsk ;;
          r <- (if negb (r =? 0) then ret r else set_cb mcsk) ;;
          if negb (r =? 0) then
            prerr "failed to set callback: %s\n" [Strerror (- r)] ;;;
            out r ucsk mcsk
          else
            (* Send unicast message and listen for response. *)
            r <- send_echo_msg ucsk fam ;;
            (if negb (r =? 0) then
               prerr "failed to send message: %s\n" [Strerror (- r)]
             else ret tt) ;;;
            printf "listening for messages\n" [] ;;;
            nl_recvmsgs_default ucsk ;;;
            (* Listen for "notifications". *)
            listen fuel mcsk ;;;
            ret None.

End Client.

(** *** What is observed of a run *)

Definition count (p : event -> bool) (t : list event) : nat :=
  length (filter p t).

Definition is_msg_free (id : nat) (e : event) : bool :=
  match e with MsgFree i => Nat.eqb i id | _ => false end.
Definition is_msg_alloc_of (id : nat) (e : event) : bool :=
  match e with MsgAlloc i => Nat.eqb i id | _ => false end.

(** A message that was allocated and never freed. *)
Definition leaked (id : nat) (t : list event) : Prop :=
  (count (is_msg_alloc_of id) t = 1 /\ count (is_msg_free id) t = 0)%nat.

Definition released_once (id : nat) (t : list event) : Prop :=
  (count (is_msg_alloc_of id) t = 1 /\ count (is_msg_free id) t = 1)%nat.

(** The room the request of [send_echo_msg] needs: the two headers and
    the string. *)
Definition request_size : Z :=
  NLMSG_HDRLEN + NLMSG_ALIGN GENL_HDRLEN
  + nla_total_size (strlen (literal "Hello from User Space, Netlink!") + 1).

(** The request as [send_echo_msg] hands it to [nl_send_auto]. *)
Definition request_of (id : nat) (size fam : Z) : nl_msg :=
  {| nm_id := id;
     nm_nlh := {| nlmsg_len := request_size; nlmsg_type := fam;
                  nlmsg_flags := 0; nlmsg_seq := NL_AUTO_SEQ;
                  nlmsg_pid := NL_AUTO_PORT |};
     nm_gnlh := Some {| genl_cmd := GENLTEST_CMD_ECHO;
                        genl_version := GENLTEST_GENL_VERSION;
                        genl_reserved := 0 |};
     nm_attrs := encode GENLTEST_A_MSG
                   (literal "Hello from User Space, Netlink!");
     nm_size := size |}.

(** *** Sample runs *)

(** A host where every step succeeds: the family has id 30 and the group
    id 5, messages get a page, the request goes out and nothing comes in. *)
Definition uenv_ok : uenv :=
  {| socket_alloc_ok := fun _ => true;
     genl_connect_ret := fun _ => 0;
     genl_ctrl_resolve_ret := 30;
     genl_ctrl_resolve_grp_ret := 5;
     add_membership_ret := 0;
     modify_cb_ret := fun _ => 0;
     default_msg_size := Some 4096;
     nl_send_ret := 56;
     inbox := fun _ _ => [] |}.

(** The same host where sending fails with [-NLE_NOMEM]. *)
Definition uenv_send_fails : uenv :=
  {| socket_alloc_ok := fun _ => true;
     genl_connect_ret := fun _ => 0;
     genl_ctrl_resolve_ret := 30;
     genl_ctrl_resolve_grp_ret := 5;
     add_membership_ret := 0;
     modify_cb_ret := fun _ => 0;
     default_msg_size := Some 4096;
     nl_send_ret := - NLE_NOMEM;
     inbox := fun _ _ => [] |}.

(** The same host where the second socket fails to connect. *)
Definition uenv_no_second_socket : uenv :=
  {| socket_alloc_ok := fun _ => true;
     genl_connect_ret := fun id => if Nat.eqb id 1 then - NLE_NOMEM else 0;
     genl_ctrl_resolve_ret := 30;
     genl_ctrl_resolve_grp_ret := 5;
     add_membership_ret := 0;
     modify_cb_ret := fun _ => 0;
     default_msg_size := Some 4096;
     nl_send_ret := 56;
     inbox := fun _ _ => [] |}.

(** A host whose messages are allocated with [size] bytes. *)
Definition uenv_sized (size : Z) : uenv :=
  {| socket_alloc_ok := fun _ => true;
     genl_connect_ret := fun _ => 0;
     genl_ctrl_resolve_ret := 30;
     genl_ctrl_resolve_grp_ret := 5;
     add_membership_ret := 0;
     modify_cb_ret := fun _ => 0;
     default_msg_size := Some size;
     nl_send_ret := 56;
     inbox := fun _ _ => [] |}.

(** The steps of the session lifecycle, as the environment lets them go. *)
Definition connects (env : uenv) : bool :=
  socket_alloc_ok env 0 && (genl_connect_ret env 0 =? 0)
  && socket_alloc_ok env 1 && (genl_connect_ret env 1 =? 0).
Definition resolves (env : uenv) : bool :=
  (0 <=? genl_ctrl_resolve_ret env) && (0 <=? genl_ctrl_resolve_grp_ret env).
Definition joins (env : uenv) : bool := 0 <=? add_membership_ret env.
Definition installs (env : uenv) : bool :=
  (modify_cb_ret env 0 =? 0) && (modify_cb_ret env 1 =? 0).
Definition sends (env : uenv) : bool :=
  match default_msg_size env with
  | None => false
  | Some size => (request_size <=? size) && (0 <=? nl_send_ret env)
  end.

(** Some step of the lifecycle fails. *)
Definition step_fails (env : uenv) : bool :=
  negb (connects env && resolves env && joins env && installs env
        && sends env).

(** Events of a socket's release, of a send, and of reception with what the
    callback prints. *)
Definition is_sock_close (id : nat) (e : event) : bool :=
  match e with SockClose i => Nat.eqb i id | _ => false end.
Definition is_sock_free (id : nat) (e : event) : bool :=
  match e with SockFree i => Nat.eqb i id | _ => false end.
Definition is_send (e : event) : bool :=
  match e with Send _ _ => true | _ => false end.
Definition is_reception (e : event) : bool :=
  match e with Recv _ | Stdout _ _ | Stderr _ _ => true | _ => false end.

End US.

(** * Properties *)

(** ** The attribute codec *)

Module WireFacts.
Import Wire.

Lemma align4 (n : Z) : Z.land (n + 4 - 1) (Z.lnot (4 - 1)) = 4 * ((n + 3) / 4).
Proof.
  rewrite <- Z.ldiff_land.
  change (4 - 1) with (Z.ones 2).
  rewrite (Z.ldiff_ones_r _ 2) by lia.
  rewrite Z.shiftr_div_pow2, Z.shiftl_mul_pow2 by lia.
  change (2 ^ 2) with 4.
  replace (n + 4 - 1) with (n + 3) by lia. lia.
Qed.

Lemma NLA_ALIGN_eq (n : Z) : NLA_ALIGN n = 4 * ((n + 3) / 4).
Proof. apply align4. Qed.

Lemma NLMSG_ALIGN_eq (n : Z) : NLMSG_ALIGN n = 4 * ((n + 3) / 4).
Proof. apply align4. Qed.

Lemma NLA_ALIGN_bounds (n : Z) : n <= NLA_ALIGN n < n + 4.
Proof.
  rewrite NLA_ALIGN_eq.
  pose proof (Z.div_mod (n + 3) 4 ltac:(lia)).
  pose proof (Z.mod_pos_bound (n + 3) 4 ltac:(lia)). lia.
Qed.

Lemma NLA_HDRLEN_eq : NLA_HDRLEN = 4.
Proof. reflexivity. Qed.

Lemma nla_padlen_bounds (n : Z) : 0 <= nla_padlen n < 4.
Proof.
  unfold nla_padlen, nla_total_size.
  pose proof (NLA_ALIGN_bounds (nla_attr_size n)). lia.
Qed.

Lemma Z_of_byte_of_Z (z : Z) : Z_of_byte (byte_of_Z z) = z mod 256.
Proof.
  unfold Z_of_byte, byte_of_Z.
  pose proof (Z.mod_pos_bound z 256 ltac:(lia)) as Hb.
  destruct (Byte.of_N (Z.to_N (z mod 256))) as [b|] eqn:E.
  - apply Byte.to_of_N in E. rewrite E. apply Z2N.id. lia.
  - apply Byte.of_N_None_iff in E. lia.
Qed.

Lemma get_put_u16 (z : Z) (rest : list byte) :
  get_u16 (put_u16 z ++ rest) = z mod 65536.
Proof.
  unfold put_u16, get_u16. cbn [app].
  rewrite !Z_of_byte_of_Z.
  change 65536 with (256 * 256).
  rewrite Z.rem_mul_r by lia. reflexivity.
Qed.

Lemma c_str_terminated (s rest : list byte) :
  nul_free s -> c_str (s ++ x00 :: rest) = s.
Proof.
  induction 1 as [|b s Hb _ IH]; cbn.
  - reflexivity.
  - destruct (Byte.eqb b x00) eqn:E.
    + apply Byte.byte_dec_bl in E. contradiction.
    + now rewrite IH.
Qed.

Lemma c_str_nul_free (mem : list byte) : nul_free (c_str mem).
Proof.
  induction mem as [|b mem IH]; cbn.
  - constructor.
  - destruct (Byte.eqb b x00) eqn:E.
    + constructor.
    + constructor; [|exact IH]. intros ->. discriminate.
Qed.

Lemma strlen_terminated (s rest : list byte) :
  nul_free s -> strlen (s ++ x00 :: rest) = Z.of_nat (length s).
Proof. intros H. unfold strlen. now rewrite c_str_terminated. Qed.

Lemma firstn_terminated (s rest : list byte) :
  firstn (Z.to_nat (Z.of_nat (length s) + 1)) (s ++ x00 :: rest) = s ++ [x00].
Proof.
  replace (Z.to_nat (Z.of_nat (length s) + 1)) with (length s + 1)%nat by lia.
  rewrite firstn_app_2. cbn. reflexivity.
Qed.

(** No record is read once nothing remains. *)
Lemma nla_for_each_attr_done fuel maxtype nla rem tb :
  rem < 4 -> nla_for_each_attr fuel maxtype nla rem tb = tb.
Proof.
  intros H. destruct fuel; cbn; [reflexivity|].
  unfold nla_ok. destruct (4 <=? rem) eqn:E; [lia|reflexivity].
Qed.

(** More fuel than remaining bytes changes nothing. *)
Lemma nla_for_each_attr_fuel maxtype :
  forall fuel fuel' nla rem tb,
    (Z.to_nat rem <= fuel)%nat -> (Z.to_nat rem <= fuel')%nat ->
    nla_for_each_attr fuel maxtype nla rem tb
    = nla_for_each_attr fuel' maxtype nla rem tb.
Proof.
  induction fuel as [|fuel IH]; intros fuel' nla rem tb H H'.
  - rewrite (nla_for_each_attr_done fuel') by lia. reflexivity.
  - destruct fuel' as [|fuel'].
    + rewrite (nla_for_each_attr_done (S fuel)) by lia. reflexivity.
    + cbn. destruct (nla_ok nla rem) eqn:Hok; [|reflexivity].
      unfold nla_ok in Hok. apply andb_prop in Hok as [Hok _].
      apply andb_prop in Hok as [H1 H2].
      pose proof (NLA_ALIGN_bounds (nla_len nla)).
      apply IH; lia.
Qed.

(** One string record, alone in its buffer, as a receiver walks it. *)
Lemma parse_single (attrtype : Z) (s rest : list byte) :
  nul_free s ->
  Z.of_nat (length s) + 1 <= NLA_PAYLOAD_MAX ->
  0 < attrtype <= GENLTEST_A_MAX ->
  let buf := encode attrtype (s ++ x00 :: rest) in
  nla_parse GENLTEST_A_MAX buf (Z.of_nat (length buf))
  = (0, array_set (repeat None (Z.to_nat (GENLTEST_A_MAX + 1)))
                  (Z.to_nat attrtype) (Some buf))
  /\ nla_get_string buf = s.
Proof.
  intros Hs Hlen Hty buf.
  assert (attrtype = 1) as -> by (unfold GENLTEST_A_MAX, __GENLTEST_A_MAX in Hty; lia).
  unfold NLA_PAYLOAD_MAX in Hlen. rewrite NLA_HDRLEN_eq in Hlen.
  set (n := Z.of_nat (length s)) in *.
  assert (Hbuf : buf = put_u16 (4 + (n + 1)) ++ put_u16 1
                       ++ (s ++ [x00]) ++ repeat x00 (Z.to_nat (nla_padlen (n + 1)))).
  { subst n buf. unfold encode, nlattr_bytes.
    rewrite strlen_terminated by assumption.
    unfold nla_attr_size. rewrite NLA_HDRLEN_eq.
    now rewrite firstn_terminated. }
  pose proof (nla_padlen_bounds (n + 1)) as Hpad.
  assert (Hl : Z.of_nat (length buf) = NLA_ALIGN (4 + (n + 1))).
  { rewrite Hbuf. rewrite !length_app, repeat_length. cbn [length put_u16].
    unfold nla_padlen, nla_total_size, nla_attr_size in *.
    rewrite NLA_HDRLEN_eq in *. lia. }
  pose proof (NLA_ALIGN_bounds (4 + (n + 1))) as Hal.
  assert (Hnl : nla_len buf = 4 + (n + 1)).
  { unfold nla_len. rewrite Hbuf, get_put_u16. apply Z.mod_small. lia. }
  assert (Hnt : nla_type buf = 1).
  { unfold nla_type. rewrite Hbuf. unfold put_u16 at 1. cbn [app skipn].
    rewrite get_put_u16. reflexivity. }
  split.
  - unfold nla_parse. f_equal.
    destruct (Z.to_nat (Z.of_nat (length buf))) as [|fuel] eqn:Hf; [lia|].
    cbn [nla_for_each_attr].
    assert (Hok : nla_ok buf (Z.of_nat (length buf)) = true).
    { unfold nla_ok. rewrite Hnl, Hl.
      apply andb_true_intro; split; [apply andb_true_intro; split|]; lia. }
    rewrite Hok, Hnt. unfold nla_next. rewrite Hnl, Hl.
    replace (1 >? GENLTEST_A_MAX) with false by reflexivity.
    apply nla_for_each_attr_done. lia.
  - unfold nla_get_string, nla_data. rewrite NLA_HDRLEN_eq, Hbuf.
    unfold put_u16. cbn [app skipn Z.to_nat Pos.to_nat Pos.iter_op Nat.add].
    rewrite <- app_assoc. cbn [app]. now apply c_str_terminated.
Qed.

(** What a receiver reads off a buffer that holds one string record. *)
Lemma decode_encode (s rest : list byte) :
  nul_free s ->
  Z.of_nat (length s) + 1 <= NLA_PAYLOAD_MAX ->
  decode (encode GENLTEST_A_MSG (s ++ x00 :: rest)) = [None; Some s].
Proof.
  intros Hs Hlen. unfold decode.
  destruct (parse_single GENLTEST_A_MSG s rest Hs Hlen) as [Hp Hg];
    [unfold GENLTEST_A_MSG, GENLTEST_A_MAX, __GENLTEST_A_MAX; lia|].
  rewrite Hp. cbn [snd].
  change (Z.to_nat (GENLTEST_A_MAX + 1)) with 2%nat.
  change (Z.to_nat GENLTEST_A_MSG) with 1%nat.
  cbn [repeat array_set map option_map]. now rewrite Hg.
Qed.

(** The length of a record is its aligned size. *)
Lemma encode_length (attrtype : Z) (s rest : list byte) :
  nul_free s ->
  Z.of_nat (length (encode attrtype (s ++ x00 :: rest)))
  = nla_total_size (Z.of_nat (length s) + 1).
Proof.
  intros Hs. unfold encode, nlattr_bytes.
  rewrite strlen_terminated by assumption. rewrite firstn_terminated.
  rewrite !length_app, repeat_length. cbn [length put_u16].
  pose proof (nla_padlen_bounds (Z.of_nat (length s) + 1)).
  unfold nla_padlen, nla_attr_size in *. rewrite NLA_HDRLEN_eq in *. lia.
Qed.

End WireFacts.

(** ** The kernel module *)

Module KSFacts.
Import Wire KS WireFacts.

Lemma hdr_room : nlmsg_total_size GENL_HDRLEN = 20.
Proof. reflexivity. Qed.

Lemma room_for_bounds (str : list byte) :
  20 + 4 + (strlen str + 1) <= room_for str < 20 + 4 + (strlen str + 1) + 4.
Proof.
  unfold room_for, nla_total_size, nla_attr_size.
  rewrite hdr_room, NLA_HDRLEN_eq.
  pose proof (NLA_ALIGN_bounds (4 + (strlen str + 1))). lia.
Qed.

(** The message under construction once the header and the string at
    [str] are in is the finished envelope but for the length field. *)
Lemma echo_doit_cases env skb info w :
  let id := fresh (trace w) in
  let str := literal "Hello from Kernel Space, Netlink!" in
  echo_doit env skb info w =
  match alloc_skb env (nlmsg_total_size (NLMSG_DEFAULT_SIZE env)) with
  | None =>
      (- ENOMEM,
       extend w [Printk KERN_ERR "failed to allocate message buffer\n" [];
                 request_line info])
  | Some room =>
      if room <? nlmsg_total_size GENL_HDRLEN then
        (- EMSGSIZE,
         extend w [SkbFree id;
                   Printk KERN_ERR "failed to create genetlink header\n" [];
                   SkbAlloc id; request_line info])
      else if room <? room_for str then
        (- EMSGSIZE,
         extend w [SkbFree id; MsgCancel id;
                   Printk KERN_ERR "failed to create message string\n" [];
                   SkbAlloc id; request_line info])
      else
        (unicast_status env,
         extend w [Printk KERN_INFO "reply sent\n" [];
                   Unicast (envelope env id room (snd_portid info)
                                     (snd_seq info) str) (snd_portid info);
                   MsgEnd id; SkbAlloc id; request_line info])
  end.
Proof.
  intros id str. subst id.
  unfold echo_doit, request_line, bind, nlmsg_new, extend.
  destruct (array_get (attrs info) GENLTEST_A_MSG) as [a|];
    cbn [pr_info emit trace kobj];
    (destruct (alloc_skb env _) as [room|]; [|reflexivity]);
    unfold genlmsg_put; cbn [skb_tailroom];
    (destruct (room <? nlmsg_total_size GENL_HDRLEN) eqn:E1; [reflexivity|]);
    unfold nla_put_string, nla_put; cbn [skb_tailroom];
    unfold room_for; fold str;
    rewrite hdr_room in *;
    change (nla_total_size (strlen str + 1)) with 40;
    (destruct (room - 20 <? 40) eqn:E2;
     [ replace (room <? 20 + 40) with true by lia
     | replace (room <? 20 + 40) with false by lia ]);
    reflexivity.
Qed.

Lemma echo_ping_cases env buf cnt w :
  let id := fresh (trace w) in
  echo_ping env buf cnt w =
  match alloc_skb env (nlmsg_total_size
                         (genlmsg_total_size (NLMSG_DEFAULT_SIZE env))) with
  | None =>
      (- ENOMEM,
       extend w [Printk KERN_ERR
                   "failed to allocate memory for genl message\n" []])
  | Some room =>
      if room <? nlmsg_total_size GENL_HDRLEN then
        (- ENOMEM,
         extend w [SkbFree id;
                   Printk KERN_ERR
                     "failed to allocate memory for genl header\n" [];
                   SkbAlloc id])
      else if room <? room_for buf then
        (- EMSGSIZE,
         extend w [SkbFree id; MsgCancel id;
                   Printk KERN_ERR "unable to create message string\n" [];
                   SkbAlloc id])
      else
        (multicast_status env,
         extend w [status_line (multicast_status env);
                   Multicast (envelope env id room 0 0 buf) 0 0;
                   MsgEnd id; SkbAlloc id])
  end.
Proof.
  intros id. subst id.
  unfold echo_ping, bind, genlmsg_new, nlmsg_new, extend.
  destruct (alloc_skb env _) as [room|]; [|reflexivity].
  unfold genlmsg_put; cbn [skb_tailroom].
  destruct (room <? nlmsg_total_size GENL_HDRLEN) eqn:E1; [reflexivity|].
  unfold nla_put_string, nla_put; cbn [skb_tailroom].
  unfold room_for. rewrite hdr_room in *.
  destruct (room - 20 <? nla_total_size (strlen buf + 1)) eqn:E2;
    [ replace (room <? 20 + nla_total_size (strlen buf + 1)) with true by lia
    | replace (room <? 20 + nla_total_size (strlen buf + 1)) with false by lia ].
  - reflexivity.
  - cbn [negb Z.eqb]. unfold genlmsg_multicast, genlmsg_end, bind, emit, ret.
    cbn [trace kobj skb_id skb_hdr skb_attrs skb_tailroom app].
    fold (multicast_status env). unfold status_line, pr_warn, pr_err, pr_info, emit.
    unfold envelope. cbn [version genl_fam].
    destruct (multicast_status env =? - ESRCH);
      [|destruct (negb (multicast_status env =? 0))];
      cbn [trace kobj]; rewrite hdr_room; reflexivity.
Qed.

Lemma unicasts_app (l t : list event) :
  unicasts (l ++ t) = unicasts l ++ unicasts t.
Proof.
  induction l as [|e l IH]; [reflexivity|].
  destruct e; cbn; rewrite ?IH; reflexivity.
Qed.

Lemma multicasts_app (l t : list event) :
  multicasts (l ++ t) = multicasts l ++ multicasts t.
Proof.
  induction l as [|e l IH]; [reflexivity|].
  destruct e; cbn; rewrite ?IH; reflexivity.
Qed.

Lemma silent_app (l t : list event) : silent (l ++ t) = silent l ++ silent t.
Proof.
  induction l as [|e l IH]; [reflexivity|].
  destruct e; cbn; rewrite ?IH; reflexivity.
Qed.

Lemma request_line_is_log (info : genl_info) :
  exists fmt args, request_line info = Printk KERN_INFO fmt args.
Proof.
  unfold request_line.
  destruct (array_get (attrs info) GENLTEST_A_MSG); eauto.
Qed.

Lemma status_line_is_log (r : Z) :
  exists lvl fmt, status_line r = Printk lvl fmt [].
Proof.
  unfold status_line.
  destruct (r =? - ESRCH); [|destruct (negb (r =? 0))]; eauto.
Qed.

Lemma not_cons_self {A} (a : A) (l : list A) : l <> a :: l.
Proof.
  intros H. apply (f_equal (@length A)) in H. cbn in H. lia.
Qed.

(** What a receiver decodes from the reply of [echo_doit]. *)
Lemma hello_decodes env id room portid seq :
  msg_of (envelope env id room portid seq
                   (literal "Hello from Kernel Space, Netlink!"))
  = [None; Some hello].
Proof. unfold msg_of, envelope. cbn [skb_attrs]. vm_compute. reflexivity. Qed.

(** The only transmission of [echo_doit] is the reply, and there is one
    exactly when the buffer was allocated with room for the message. *)
Lemma echo_doit_unicasts env skb info w :
  let r := echo_doit env skb info w in
  let str := literal "Hello from Kernel Space, Netlink!" in
  (exists room,
      alloc_skb env (nlmsg_total_size (NLMSG_DEFAULT_SIZE env)) = Some room
      /\ room_for str <= room
      /\ fst r = unicast_status env
      /\ unicasts (trace (snd r))
         = (envelope env (fresh (trace w)) room (snd_portid info)
                     (snd_seq info) str, snd_portid info)
           :: unicasts (trace w))
  \/ (fst r < 0 /\ unicasts (trace (snd r)) = unicasts (trace w)).
Proof.
  intros r str. subst r. rewrite echo_doit_cases. fold str.
  destruct (request_line_is_log info) as (fmt & args & Hl).
  destruct (alloc_skb env _) as [room|].
  - destruct (room <? nlmsg_total_size GENL_HDRLEN) eqn:E1;
      [|destruct (room <? room_for str) eqn:E2].
    + right. cbn. rewrite Hl. split; [reflexivity|reflexivity].
    + right. cbn. rewrite Hl. split; reflexivity.
    + left. exists room. apply Z.ltb_ge in E2.
      split; [reflexivity|]. split; [exact E2|].
      cbn. rewrite Hl. split; reflexivity.
  - right. cbn. rewrite Hl. split; reflexivity.
Qed.

Lemma policy_accepts_without_msg (info : genl_info) :
  array_get (attrs info) GENLTEST_A_MSG = None ->
  policy_accepts echo_pol (attrs info) = true.
Proof.
  unfold array_get, policy_accepts, echo_pol.
  change (Z.to_nat GENLTEST_A_MSG) with 1%nat.
  destruct (attrs info) as [|a0 [|a1 tb]]; cbn [nth]; intros H.
  - reflexivity.
  - destruct a0; reflexivity.
  - subst a1. destruct a0; reflexivity.
Qed.

(** ECHO is the one command of the table, so an accepted request reaches
    [echo_doit]. *)
Lemma dispatch_echo env skb info :
  policy_accepts echo_pol (attrs info) = true ->
  dispatch env GENLTEST_CMD_ECHO skb info = echo_doit env skb info.
Proof.
  intros H. unfold dispatch, genl_ops. cbn [find cmd].
  rewrite Z.eqb_refl. cbn [policy doit]. now rewrite H.
Qed.

(** C1, as stated, fails: a request that was parsed and validated gets no
    reply when the kernel has no memory for the reply buffer; the handler
    then returns [-ENOMEM] and nothing reaches the send primitive. *)
Lemma echo_doit_without_memory_sends_nothing :
  policy_accepts echo_pol (attrs request_ping) = true
  /\ fst (dispatch env_nomem GENLTEST_CMD_ECHO request_skb request_ping boot)
     = - ENOMEM
  /\ unicasts (trace (snd (dispatch env_nomem GENLTEST_CMD_ECHO request_skb
                                    request_ping boot))) = [].
Proof.
  assert (Hp : policy_accepts echo_pol (attrs request_ping) = true)
    by (vm_compute; reflexivity).
  split; [exact Hp|].
  rewrite (dispatch_echo env_nomem request_skb request_ping Hp).
  rewrite echo_doit_cases. cbn. split; reflexivity.
Qed.

(** C1 (amended): for every inbound ECHO request, whenever the reply buffer
    is allocated with room for the header and the attribute, the handler
    builds a reply that carries under MSG exactly "Hello from Kernel Space,
    Netlink!" and hands it, finalized, to the point-to-point send primitive
    for the sender's port, with the sender's port and sequence number in its
    header, and returns what the send answered; when the buffer cannot be
    allocated it returns [-ENOMEM], when the room is short it returns
    [-EMSGSIZE], and in both cases nothing is sent. *)
Theorem echo_doit_replies_hello env skb info w :
  let r := echo_doit env skb info w in
  let str := literal "Hello from Kernel Space, Netlink!" in
  let alloc := alloc_skb env (nlmsg_total_size (NLMSG_DEFAULT_SIZE env)) in
  (forall room, alloc = Some room -> room_for str <= room ->
     exists reply nlh gh,
       trace (snd r)
       = Printk KERN_INFO "reply sent\n" []
         :: Unicast reply (snd_portid info) :: MsgEnd (skb_id reply)
         :: SkbAlloc (skb_id reply) :: request_line info :: trace w
       /\ skb_hdr reply = Some (nlh, gh)
       /\ nlmsg_pid nlh = snd_portid info
       /\ nlmsg_seq nlh = snd_seq info
       /\ genl_cmd gh = GENLTEST_CMD_ECHO
       /\ msg_of reply = [None; Some hello]
       /\ fst r = unicast_status env)
  /\ (alloc = None ->
      fst r = - ENOMEM /\ unicasts (trace (snd r)) = unicasts (trace w))
  /\ (forall room, alloc = Some room -> room < room_for str ->
      fst r = - EMSGSIZE /\ unicasts (trace (snd r)) = unicasts (trace w)).
Proof.
  intros r str alloc. subst r alloc.
  rewrite echo_doit_cases. fold str.
  destruct (request_line_is_log info) as (fmt & args & Hl).
  pose proof (room_for_bounds str) as Hb.
  assert (Hs : 0 <= strlen str) by (unfold strlen; lia).
  split; [|split].
  - intros room -> Hroom. rewrite hdr_room.
    replace (room <? 20) with false by lia.
    replace (room <? room_for str) with false by lia.
    exists (envelope env (fresh (trace w)) room (snd_portid info)
                     (snd_seq info) str).
    eexists _, _. cbn [fst snd extend trace app envelope skb_id skb_hdr].
    split; [reflexivity|]. split; [reflexivity|].
    cbn [nlmsg_pid nlmsg_seq genl_cmd].
    do 3 (split; [reflexivity|]).
    split; [apply hello_decodes|reflexivity].
  - intros ->. cbn. rewrite Hl. split; reflexivity.
  - intros room -> Hroom.
    destruct (room <? nlmsg_total_size GENL_HDRLEN).
    + cbn. rewrite Hl. split; reflexivity.
    + replace (room <? room_for str) with true by lia.
      cbn. rewrite Hl. split; reflexivity.
Qed.

(** The amended C1 at a request from port 4242 with sequence number 7. *)
Lemma echo_doit_replies_hello_witness :
  exists reply nlh gh,
    trace (snd (echo_doit env_ok request_skb request_ping boot))
    = [Printk KERN_INFO "reply sent\n" []; Unicast reply 4242;
       MsgEnd (skb_id reply); SkbAlloc (skb_id reply);
       request_line request_ping]
    /\ skb_hdr reply = Some (nlh, gh)
    /\ nlmsg_pid nlh = 4242
    /\ nlmsg_seq nlh = 7
    /\ genl_cmd gh = GENLTEST_CMD_ECHO
    /\ msg_of reply = [None; Some hello]
    /\ fst (echo_doit env_ok request_skb request_ping boot) = 0.
Proof.
  destruct (echo_doit_replies_hello env_ok request_skb request_ping boot)
    as [H _].
  apply (H 3776); [reflexivity | vm_compute; discriminate].
Defined.

(** C2, as stated, fails: a request without MSG passes the policy, yet when
    the kernel has no memory for the reply buffer the handler returns the
    error [-ENOMEM] and sends no reply. *)
Lemma echo_doit_bare_without_memory :
  array_get (attrs request_bare) GENLTEST_A_MSG = None
  /\ fst (echo_doit env_nomem request_skb request_bare boot) = - ENOMEM
  /\ unicasts (trace (snd (echo_doit env_nomem request_skb request_bare boot)))
     = [].
Proof.
  split; [reflexivity|].
  rewrite echo_doit_cases. cbn. split; reflexivity.
Qed.

(** C2 (amended): for every ECHO request that omits MSG, the policy accepts
    the request, the handler logs it as an empty message, and whenever the
    reply buffer is allocated with room for the header and the attribute it
    builds and sends the reply and returns what the send answered, as it
    does for a request that carries MSG. *)
Theorem echo_doit_accepts_missing_msg env skb info w room :
  array_get (attrs info) GENLTEST_A_MSG = None ->
  alloc_skb env (nlmsg_total_size (NLMSG_DEFAULT_SIZE env)) = Some room ->
  room_for (literal "Hello from Kernel Space, Netlink!") <= room ->
  let r := dispatch env GENLTEST_CMD_ECHO skb info w in
  exists reply,
    trace (snd r)
    = Printk KERN_INFO "reply sent\n" []
      :: Unicast reply (snd_portid info) :: MsgEnd (skb_id reply)
      :: SkbAlloc (skb_id reply)
      :: Printk KERN_INFO "empty message received\n" [] :: trace w
    /\ msg_of reply = [None; Some hello]
    /\ fst r = unicast_status env.
Proof.
  intros Hmsg Halloc Hroom r. subst r.
  rewrite dispatch_echo by now apply policy_accepts_without_msg.
  rewrite echo_doit_cases, Halloc.
  pose proof (room_for_bounds (literal "Hello from Kernel Space, Netlink!")).
  rewrite hdr_room.
  replace (room <? 20) with false
    by (unfold strlen in *; lia).
  replace (room <? room_for _) with false by lia.
  unfold request_line. rewrite Hmsg.
  eexists (envelope env (fresh (trace w)) room (snd_portid info)
                    (snd_seq info) _).
  cbn [fst snd extend trace app envelope skb_id].
  split; [reflexivity|]. split; [apply hello_decodes|reflexivity].
Qed.

(** The amended C2 at the request without MSG from port 4242. *)
Lemma echo_doit_accepts_missing_msg_witness :
  exists reply,
    trace (snd (dispatch env_ok GENLTEST_CMD_ECHO request_skb request_bare boot))
    = [Printk KERN_INFO "reply sent\n" []; Unicast reply 4242;
       MsgEnd (skb_id reply); SkbAlloc (skb_id reply);
       Printk KERN_INFO "empty message received\n" []]
    /\ msg_of reply = [None; Some hello]
    /\ fst (dispatch env_ok GENLTEST_CMD_ECHO request_skb request_bare boot) = 0.
Proof.
  apply (echo_doit_accepts_missing_msg env_ok request_skb request_bare boot 3776);
    [reflexivity | reflexivity | vm_compute; discriminate].
Defined.

(** C9: any two requests that were answered, whatever their MSG attributes
    and whatever the kernel decided, got replies with the same attribute
    bytes, which decode to the same string; and two requests from the same
    sender that differ in their attributes only lead to the same result and
    the same events, log lines apart. *)
Theorem reply_ignores_request_payload env1 env2 skb1 skb2 info1 info2 w1 w2
    reply1 reply2 port1 port2 :
  unicasts (trace (snd (echo_doit env1 skb1 info1 w1)))
  = (reply1, port1) :: unicasts (trace w1) ->
  unicasts (trace (snd (echo_doit env2 skb2 info2 w2)))
  = (reply2, port2) :: unicasts (trace w2) ->
  skb_attrs reply1 = skb_attrs reply2
  /\ msg_of reply1 = [None; Some hello]
  /\ msg_of reply2 = [None; Some hello]
  /\ (forall env skb w,
        snd_portid info1 = snd_portid info2 ->
        snd_seq info1 = snd_seq info2 ->
        fst (echo_doit env skb info1 w) = fst (echo_doit env skb info2 w)
        /\ silent (trace (snd (echo_doit env skb info1 w)))
           = silent (trace (snd (echo_doit env skb info2 w)))).
Proof.
  intros H1 H2.
  destruct (echo_doit_unicasts env1 skb1 info1 w1)
    as [(room1 & _ & _ & _ & U1) | (_ & U1)];
    [|rewrite U1 in H1; now apply not_cons_self in H1].
  destruct (echo_doit_unicasts env2 skb2 info2 w2)
    as [(room2 & _ & _ & _ & U2) | (_ & U2)];
    [|rewrite U2 in H2; now apply not_cons_self in H2].
  rewrite U1 in H1. rewrite U2 in H2.
  injection H1 as <- _. injection H2 as <- _.
  split; [reflexivity|].
  split; [apply hello_decodes|]. split; [apply hello_decodes|].
  intros env skb w Hp Hq. rewrite !echo_doit_cases.
  destruct (request_line_is_log info1) as (f1 & a1 & L1).
  destruct (request_line_is_log info2) as (f2 & a2 & L2).
  rewrite Hp, Hq.
  destruct (alloc_skb env _) as [room|];
    [destruct (room <? nlmsg_total_size GENL_HDRLEN);
     [|destruct (room <? room_for _)]|];
    cbn; rewrite L1, L2; split; reflexivity.
Qed.

(** C9 at the request with MSG="ping" and the one without MSG, the second
    one served while nobody listens to the group. *)
Lemma reply_ignores_request_payload_witness :
  exists reply1 reply2,
    unicasts (trace (snd (echo_doit env_ok request_skb request_ping boot)))
    = [(reply1, 4242)]
    /\ unicasts (trace (snd (echo_doit env_nobody request_skb request_bare boot)))
       = [(reply2, 4242)]
    /\ skb_attrs reply1 = skb_attrs reply2
    /\ msg_of reply1 = [None; Some hello]
    /\ msg_of reply2 = [None; Some hello].
Proof.
  eexists _, _.
  split; [reflexivity|]. split; [reflexivity|].
  pose proof (reply_ignores_request_payload env_ok env_nobody request_skb
                request_skb request_ping request_bare boot boot _ _ _ _
                eq_refl eq_refl) as (Ha & Hb & Hc & _).
  split; [exact Ha|]. split; [exact Hb|exact Hc].
Defined.

(** *** The broadcast emitter and the trigger file *)

(** [ping_store] passes the capped count on and returns it, whatever
    [echo_ping] answers. *)
Lemma ping_store_unfold env buf cnt w :
  ping_store env buf cnt w
  = (to_int (if cnt >? MSG_MAX_LEN then MSG_MAX_LEN else cnt),
     snd (echo_ping env buf
            (to_int (if cnt >? MSG_MAX_LEN then MSG_MAX_LEN else cnt)) w)).
Proof.
  unfold ping_store, bind, ret.
  destruct (echo_ping env buf _ w) as [r w']. reflexivity.
Qed.

Lemma to_int_small (z : Z) : - 2 ^ 31 <= z < 2 ^ 31 -> to_int z = z.
Proof. intros H. unfold to_int. rewrite Z.mod_small; lia. Qed.

(** What a receiver decodes from a message that carries the string [s]. *)
Lemma envelope_decodes env id room portid seq (s rest : list byte) :
  nul_free s ->
  Z.of_nat (length s) + 1 <= NLA_PAYLOAD_MAX ->
  msg_of (envelope env id room portid seq (s ++ x00 :: rest))
  = [None; Some s].
Proof.
  intros Hs Hlen. unfold msg_of, envelope. cbn [skb_attrs].
  now apply decode_encode.
Qed.

(** The message [echo_ping] broadcasts holds the whole string found at
    [buf]; the count it is given plays no part. *)
Lemma echo_ping_multicasts env buf cnt w room :
  alloc_skb env (nlmsg_total_size (genlmsg_total_size (NLMSG_DEFAULT_SIZE env)))
  = Some room ->
  room_for buf <= room ->
  multicasts (trace (snd (echo_ping env buf cnt w)))
  = (envelope env (fresh (trace w)) room 0 0 buf, 0, 0)
    :: multicasts (trace w)
  /\ fst (echo_ping env buf cnt w) = multicast_status env.
Proof.
  intros Ha Hroom. rewrite echo_ping_cases, Ha.
  pose proof (room_for_bounds buf).
  assert (0 <= strlen buf) by (unfold strlen; lia).
  rewrite hdr_room.
  replace (room <? 20) with false by lia.
  replace (room <? room_for buf) with false by lia.
  destruct (status_line_is_log (multicast_status env)) as (lvl & fmt & Hl).
  cbn. rewrite Hl. split; reflexivity.
Qed.

(** A send is attempted only in the last case of [echo_ping]. *)
Lemma echo_ping_attempt env buf cnt w m :
  multicasts (trace (snd (echo_ping env buf cnt w)))
  = m :: multicasts (trace w) ->
  fst (echo_ping env buf cnt w) = multicast_status env
  /\ exists t, trace (snd (echo_ping env buf cnt w))
               = status_line (multicast_status env) :: t.
Proof.
  rewrite echo_ping_cases.
  destruct (alloc_skb env _) as [room|];
    [destruct (room <? nlmsg_total_size GENL_HDRLEN);
     [|destruct (room <? room_for buf)]|]; cbn; intros H;
    try (now apply not_cons_self in H).
  split; [reflexivity|]. eexists. reflexivity.
Qed.

(** C6: when [echo_ping] attempts its send and the group has no listener,
    it returns [-ESRCH] and logs the warning that nobody was listening.
    That status is its own: for every attempted send, [echo_ping] returns 0
    and logs the success when a listener queued the message and no delivery
    failure was reported, and it returns [-ENOBUFS] and logs an error when
    a delivery failure was reported; it returns [-ESRCH] only when no
    listener queued the message and no failure was reported.  [echo_ping]
    is a total function: it returns in every case. *)
Theorem echo_ping_without_listeners env buf cnt w m :
  multicasts (trace (snd (echo_ping env buf cnt w)))
  = m :: multicasts (trace w) ->
  let r := echo_ping env buf cnt w in
  (listeners env = [] ->
   fst r = - ESRCH
   /\ exists t, trace (snd r)
                = Printk KERN_WARNING
                    "multicast message sent, but nobody was listening...\n" []
                  :: t)
  /\ (existsb is_reported (listeners env) = false ->
      existsb is_queued (listeners env) = true ->
      fst r = 0
      /\ exists t, trace (snd r)
                   = Printk KERN_INFO "multicast message sent\n" [] :: t)
  /\ (existsb is_reported (listeners env) = true ->
      fst r = - ENOBUFS
      /\ exists t, trace (snd r)
                   = Printk KERN_ERR
                       "failed to send multicast genl message\n" []
                     :: t)
  /\ (fst r = - ESRCH ->
      existsb is_queued (listeners env) = false
      /\ existsb is_reported (listeners env) = false)
  /\ (fst r = 0 \/ fst r = - ENOBUFS \/ fst r = - ESRCH).
Proof.
  intros Hm r. subst r.
  destruct (echo_ping_attempt env buf cnt w m Hm) as [Hr [t Ht]].
  rewrite Hr, Ht. unfold multicast_status.
  split; [|split; [|split; [|split]]].
  - intros Hl. rewrite Hl. cbn [existsb].
    split; [reflexivity|]. exists t. reflexivity.
  - intros Hrep Hq. rewrite Hrep, Hq.
    split; [reflexivity|]. exists t. reflexivity.
  - intros Hrep. rewrite Hrep.
    split; [reflexivity|]. exists t. reflexivity.
  - destruct (existsb is_reported (listeners env)); [discriminate|].
    destruct (existsb is_queued (listeners env)); [discriminate|].
    intros _. split; reflexivity.
  - destruct (existsb is_reported (listeners env)); [auto|].
    destruct (existsb is_queued (listeners env)); auto.
Qed.

(** C6 for a write of "hello": with nobody in the group [echo_ping] returns
    [-ESRCH], with a listener that queues the message it returns 0, with a
    listener whose overrun is reported it returns [-ENOBUFS]. *)
Lemma echo_ping_without_listeners_witness :
  (fst (echo_ping env_nobody (literal "hello") 5 boot) = - ESRCH
   /\ exists t, trace (snd (echo_ping env_nobody (literal "hello") 5 boot))
                = Printk KERN_WARNING
                    "multicast message sent, but nobody was listening...\n" []
                  :: t)
  /\ fst (echo_ping env_ok (literal "hello") 5 boot) = 0
  /\ fst (echo_ping env_overrun (literal "hello") 5 boot) = - ENOBUFS.
Proof.
  split; [|split].
  - destruct (echo_ping_without_listeners env_nobody (literal "hello") 5 boot
                _ eq_refl) as [H _].
    apply H. reflexivity.
  - destruct (echo_ping_without_listeners env_ok (literal "hello") 5 boot
                _ eq_refl) as (_ & H & _).
    apply H; reflexivity.
  - destruct (echo_ping_without_listeners env_overrun (literal "hello") 5 boot
                _ eq_refl) as (_ & _ & H & _).
    apply H. reflexivity.
Defined.

(** C3 fails on the code at a write of 2000 letters: [ping_store] caps the
    count at 1024 and returns it, but [echo_ping] never reads the count, and
    the one message broadcast carries all 2000 letters under MSG. *)
Theorem ping_store_broadcasts_uncapped :
  fst (ping_store env_ok write_2000 2000 boot) = 1024
  /\ map (fun m => msg_of (fst (fst m)))
         (multicasts (trace (snd (ping_store env_ok write_2000 2000 boot))))
     = [[None; Some (repeat "A"%byte 2000)]]
  /\ length (repeat "A"%byte 2000) = 2000%nat.
Proof.
  rewrite ping_store_unfold. cbn [fst snd].
  split; [reflexivity|]. split; [|apply repeat_length].
  destruct (echo_ping_multicasts env_ok write_2000
              (to_int (if 2000 >? MSG_MAX_LEN then MSG_MAX_LEN else 2000))
              boot 3780) as [Hm _];
    [reflexivity | vm_compute; discriminate |].
  rewrite Hm. cbn [map fst multicasts trace boot].
  unfold write_2000. rewrite envelope_decodes; [reflexivity| |].
  - apply Forall_forall. intros b Hb. apply repeat_spec in Hb. now subst b.
  - rewrite repeat_length. vm_compute. discriminate.
Qed.

(** A write of a string is broadcast whole, whatever its length and the
    count: the message carries the bytes up to the first NUL of the
    buffer. *)
Lemma ping_store_broadcasts_c_string env (s rest : list byte) cnt w room :
  nul_free s ->
  Z.of_nat (length s) + 1 <= NLA_PAYLOAD_MAX ->
  alloc_skb env (nlmsg_total_size (genlmsg_total_size (NLMSG_DEFAULT_SIZE env)))
  = Some room ->
  room_for (s ++ x00 :: rest) <= room ->
  exists skb,
    multicasts (trace (snd (ping_store env (s ++ x00 :: rest) cnt w)))
    = (skb, 0, 0) :: multicasts (trace w)
    /\ msg_of skb = [None; Some s].
Proof.
  intros Hs Hlen Ha Hroom. rewrite ping_store_unfold. cbn [snd].
  destruct (echo_ping_multicasts env (s ++ x00 :: rest)
              (to_int (if cnt >? MSG_MAX_LEN then MSG_MAX_LEN else cnt))
              w room Ha Hroom) as [Hm _].
  eexists. split; [exact Hm|]. now apply envelope_decodes.
Qed.

(** C10: a write of [cnt] bytes returns [min cnt 1024], whatever [echo_ping]
    answered: [-ENOMEM] without a buffer, [-EMSGSIZE] when the string does
    not fit, the status of the send otherwise; the events of the write are
    those of [echo_ping]. *)
Theorem ping_store_returns_capped_count env buf cnt w :
  0 <= cnt < 2 ^ 64 ->
  fst (ping_store env buf cnt w) = Z.min cnt 1024
  /\ snd (ping_store env buf cnt w)
     = snd (echo_ping env buf (Z.min cnt 1024) w).
Proof.
  intros Hc. rewrite ping_store_unfold. cbn [fst snd].
  unfold MSG_MAX_LEN.
  assert (H : to_int (if cnt >? 1024 then 1024 else cnt) = Z.min cnt 1024).
  { destruct (cnt >? 1024) eqn:E; rewrite to_int_small; lia. }
  rewrite H. split; reflexivity.
Qed.

(** C10 at a write of 2000 bytes while the kernel has no memory for the
    message: the emit fails with [-ENOMEM], the write returns 1024. *)
Lemma ping_store_returns_capped_count_witness :
  fst (ping_store env_nomem write_2000 2000 boot) = 1024
  /\ fst (echo_ping env_nomem write_2000 1024 boot) = - ENOMEM.
Proof.
  split; [|reflexivity].
  apply (ping_store_returns_capped_count env_nomem write_2000 2000 boot). lia.
Defined.

(** *** The builders of the kernel module *)

Lemma count_own_id (id : nat) : Nat.eqb id id = true.
Proof. apply Nat.eqb_refl. Qed.

(** Every path of [echo_doit] that allocates a buffer releases it through
    exactly one of the two ways. *)
Lemma echo_doit_releases env skb info w :
  exists l, snd (echo_doit env skb info w) = extend w l
            /\ forallb neutral l = true
            /\ (count is_alloc l = 0%nat
                \/ (count is_alloc l = 1%nat
                    /\ released_once (fresh (trace w)) l)).
Proof.
  rewrite echo_doit_cases.
  destruct (request_line_is_log info) as (fmt & args & Hl).
  unfold released_once, count.
  destruct (alloc_skb env _) as [room|];
    [destruct (room <? nlmsg_total_size GENL_HDRLEN);
     [|destruct (room <? room_for _)]|];
    eexists; (split; [reflexivity|]); rewrite Hl; cbn;
    rewrite ?count_own_id; cbn; (split; [reflexivity|]); intuition auto.
Qed.

Lemma echo_ping_releases env buf cnt w :
  exists l, snd (echo_ping env buf cnt w) = extend w l
            /\ forallb neutral l = true
            /\ (count is_alloc l = 0%nat
                \/ (count is_alloc l = 1%nat
                    /\ released_once (fresh (trace w)) l)).
Proof.
  rewrite echo_ping_cases.
  destruct (status_line_is_log (multicast_status env)) as (lvl & fmt & Hl).
  unfold released_once, count.
  destruct (alloc_skb env _) as [room|];
    [destruct (room <? nlmsg_total_size GENL_HDRLEN);
     [|destruct (room <? room_for _)]|];
    eexists; (split; [reflexivity|]); rewrite ?Hl; cbn;
    rewrite ?count_own_id; cbn; (split; [reflexivity|]); intuition auto.
Qed.

(** *** The lifecycle of the module *)

Lemma registered_neutral (l t : list event) :
  forallb neutral l = true -> registered (l ++ t) = registered t.
Proof.
  induction l as [|e l IH]; [reflexivity|]. cbn [forallb app].
  intros H. apply andb_prop in H as [He Hl].
  destruct e; try discriminate He; cbn; auto.
Qed.

Lemma file_exists_neutral (l t : list event) :
  forallb neutral l = true -> file_exists (l ++ t) = file_exists t.
Proof.
  induction l as [|e l IH]; [reflexivity|]. cbn [forallb app].
  intros H. apply andb_prop in H as [He Hl].
  destruct e; try discriminate He; cbn; auto.
Qed.

Lemma always_neutral (l t : list event) :
  forallb neutral l = true ->
  always file_backs_family t -> always file_backs_family (l ++ t).
Proof.
  induction l as [|e l IH]; [auto|]. intros H Ht.
  pose proof H as H'. cbn [forallb] in H'. apply andb_prop in H' as [_ Hl].
  cbn [app always]. split; [|now apply IH].
  unfold file_backs_family. change (e :: l ++ t) with ((e :: l) ++ t).
  rewrite registered_neutral, file_exists_neutral by assumption.
  destruct t; [exact Ht | exact (proj1 Ht)].
Qed.

Lemma run_ops_neutral (ops : list op) :
  forall w, exists l, snd (run_ops ops w) = extend w l
                      /\ forallb neutral l = true.
Proof.
  induction ops as [|o ops IH]; intros w.
  - exists []. destruct w. split; reflexivity.
  - cbn [run_ops]. unfold bind.
    assert (exists l, snd (run_op o w) = extend w l
                      /\ forallb neutral l = true) as (l1 & E1 & N1).
    { destruct o as [env buf cnt | env skb info]; cbn [run_op].
      - rewrite ping_store_unfold. cbn [snd].
        destruct (echo_ping_releases env buf
                    (to_int (if cnt >? MSG_MAX_LEN then MSG_MAX_LEN else cnt)) w)
          as (l & E & N & _). eauto.
      - destruct (echo_doit_releases env skb info w) as (l & E & N & _).
        eauto. }
    destruct (run_op o w) as [r w1]. cbn [snd] in E1. subst w1.
    destruct (IH (extend w l1)) as (l2 & E2 & N2).
    exists (l2 ++ l1). rewrite E2. unfold extend. cbn [kobj trace].
    rewrite app_assoc, forallb_app, N1, N2. split; reflexivity.
Qed.

Lemma init_genltest_cases env w :
  init_genltest env w =
  if kobject_create_ok env then
    if sysfs_create_file_ret env =? 0 then
      if genl_register_family_ret env =? 0 then
        (0, {| kobj := Some "genltest"%string;
               trace := [Printk KERN_INFO "init end\n" [];
                         Register "genltest"; SysfsCreate "ping";
                         KobjCreate "genltest";
                         Printk KERN_INFO "init start\n" []] ++ trace w |})
      else
        (genl_register_family_ret env,
         {| kobj := Some "genltest"%string;
            trace := [Printk KERN_INFO "init end\n" []; KobjPut;
                      SysfsRemove "ping";
                      Printk KERN_CRIT
                        "failed to register generic netlink family\n" [];
                      SysfsCreate "ping"; KobjCreate "genltest";
                      Printk KERN_INFO "init start\n" []] ++ trace w |})
    else
      (sysfs_create_file_ret env,
       {| kobj := Some "genltest"%string;
          trace := [KobjPut;
                    Printk KERN_ERR "unable to create sysfs file\n" [];
                    KobjCreate "genltest";
                    Printk KERN_INFO "init start\n" []] ++ trace w |})
  else
    (- ENOMEM,
     {| kobj := None;
        trace := [Printk KERN_ERR "unable to create kobject\n" [];
                  Printk KERN_INFO "init start\n" []] ++ trace w |}).
Proof.
  cbv [init_genltest bind ret kobject_create_and_add sysfs_create_file
       genl_register_family get_kobj set_kobj pr_info pr_err pr_crit
       sysfs_remove_file kobject_put emit kobj trace].
  destruct (kobject_create_ok env); [|reflexivity].
  destruct (sysfs_create_file_ret env =? 0) eqn:Es.
  - cbn [negb Z.eqb].
    destruct (genl_register_family_ret env =? 0) eqn:Er.
    + reflexivity.
    + rewrite Er. reflexivity.
  - rewrite Es. reflexivity.
Qed.

Lemma exit_genltest_cases env w :
  exit_genltest env w =
  (tt, {| kobj := kobj w;
          trace := [Printk KERN_INFO "exit\n" []; KobjPut; SysfsRemove "ping"]
                   ++ (if registered (trace w)
                          && (genl_unregister_family_ret env =? 0)
                       then [Unregister "genltest"]
                       else [Printk KERN_ERR
                               "failed to unregister generic netlink family\n"
                               []])
                   ++ trace w |}).
Proof.
  cbv [exit_genltest bind ret genl_unregister_family get_kobj pr_info pr_err
       sysfs_remove_file kobject_put emit].
  destruct (registered (trace w)); [|reflexivity].
  destruct (genl_unregister_family_ret env =? 0) eqn:E.
  - reflexivity.
  - rewrite E. reflexivity.
Qed.

(** C8, as stated, fails: when the transport refuses to remove the family,
    [exit_genltest] logs the failure and removes the trigger file all the
    same; after a load and an unload under such a kernel the family is
    registered and the file does not exist. *)
Lemma exit_removes_file_of_lingering_family :
  fst (lifecycle env_refuses_unregister [] boot) = 0
  /\ registered (trace (snd (lifecycle env_refuses_unregister [] boot))) = true
  /\ file_exists (trace (snd (lifecycle env_refuses_unregister [] boot)))
     = false
  /\ trace (snd (lifecycle env_refuses_unregister [] boot))
     = [Printk KERN_INFO "exit\n" []; KobjPut; SysfsRemove "ping";
        Printk KERN_ERR "failed to unregister generic netlink family\n" [];
        Printk KERN_INFO "init end\n" []; Register "genltest";
        SysfsCreate "ping"; KobjCreate "genltest";
        Printk KERN_INFO "init start\n" []].
Proof.
  split; [reflexivity|]. split; [reflexivity|]. split; reflexivity.
Qed.

(** C8 (amended): whatever the kernel decides and whatever requests and
    writes come in between, the trigger file is created before the family
    is registered and is not removed before the unregistration has been
    attempted: up to and including that attempt the family is never
    registered without the file.  When the unregistration succeeds, the
    family is unregistered before the file is removed and the family is
    never registered without the file, through the whole run.  When the
    transport refuses the unregistration, [exit_genltest] logs the failure
    and removes the file all the same: the family lingers, registered,
    without it.  A failed load never leaves the family registered. *)
Theorem trigger_file_outlives_registration env ops :
  (genl_unregister_family_ret env = 0 ->
   always file_backs_family (trace (snd (lifecycle env ops boot))))
  /\ (fst (init_genltest env boot) <> 0 ->
      registered (trace (snd (init_genltest env boot))) = false
      /\ always file_backs_family (trace (snd (lifecycle env ops boot))))
  /\ (fst (init_genltest env boot) = 0 ->
      trace (snd (init_genltest env boot))
      = [Printk KERN_INFO "init end\n" []; Register "genltest";
         SysfsCreate "ping"; KobjCreate "genltest";
         Printk KERN_INFO "init start\n" []]
      /\ exists l e,
           forallb neutral l = true
           /\ trace (snd (lifecycle env ops boot))
              = [Printk KERN_INFO "exit\n" []; KobjPut; SysfsRemove "ping"; e]
                ++ l ++ trace (snd (init_genltest env boot))
           /\ always file_backs_family
                (e :: l ++ trace (snd (init_genltest env boot)))
           /\ (genl_unregister_family_ret env = 0 ->
               e = Unregister "genltest")
           /\ (genl_unregister_family_ret env <> 0 ->
               e = Printk KERN_ERR
                     "failed to unregister generic netlink family\n" []
               /\ registered (trace (snd (lifecycle env ops boot))) = true
               /\ file_exists (trace (snd (lifecycle env ops boot)))
                  = false)).
Proof.
  unfold lifecycle, bind. rewrite init_genltest_cases.
  destruct (kobject_create_ok env);
    [destruct (sysfs_create_file_ret env =? 0) eqn:Es;
     [destruct (genl_register_family_ret env =? 0) eqn:Er|]|].
  - cbn [Z.eqb fst snd].
    set (w1 := {| kobj := Some "genltest"%string; trace := _ |}).
    destruct (run_ops_neutral ops w1) as (l & El & Nl).
    destruct (run_ops ops w1) as [u w2]. cbn [snd] in El. subst w2.
    rewrite exit_genltest_cases. unfold extend. cbn [kobj trace fst snd ret].
    rewrite (registered_neutral l) by assumption. subst w1.
    cbn [registered trace app boot andb].
    assert (Hserve : always file_backs_family
                       (l ++ [Printk KERN_INFO "init end\n" [];
                              Register "genltest"; SysfsCreate "ping";
                              KobjCreate "genltest";
                              Printk KERN_INFO "init start\n" []])).
    { apply always_neutral; [assumption|].
      cbn. unfold file_backs_family. cbn. repeat split; auto; discriminate. }
    destruct (genl_unregister_family_ret env =? 0) eqn:Eu.
    + apply Z.eqb_eq in Eu. cbn [app].
      assert (Hall : always file_backs_family
                       (Unregister "genltest"
                        :: l ++ [Printk KERN_INFO "init end\n" [];
                                 Register "genltest"; SysfsCreate "ping";
                                 KobjCreate "genltest";
                                 Printk KERN_INFO "init start\n" []])).
      { cbn [always]. split; [|exact Hserve].
        unfold file_backs_family. cbn. discriminate. }
      split; [|split; [intros H; now contradiction H|]].
      * intros _. cbn [always]. unfold file_backs_family at 1 2 3 4.
        repeat (split; [cbn; intros; try reflexivity; discriminate|]).
        exact Hserve.
      * intros _. split; [reflexivity|]. exists l, (Unregister "genltest").
        split; [assumption|]. split; [reflexivity|]. split; [exact Hall|].
        split; [reflexivity|]. intros H. contradiction.
    + apply Z.eqb_neq in Eu. cbn [app].
      split; [intros H; contradiction|].
      split; [intros H; now contradiction H|].
      intros _. split; [reflexivity|].
      exists l, (Printk KERN_ERR
                   "failed to unregister generic netlink family\n" []).
      split; [assumption|]. split; [reflexivity|].
      split.
      { cbn [always]. split; [|exact Hserve].
        unfold file_backs_family.
        change (?e :: l ++ ?t) with ([e] ++ l ++ t).
        rewrite app_assoc, registered_neutral, file_exists_neutral;
          try (rewrite forallb_app, Nl; reflexivity).
        reflexivity. }
      split; [intros H; contradiction|]. intros _.
      split; [reflexivity|].
      cbn [registered file_exists].
      split; [|reflexivity].
      now rewrite (registered_neutral l).
  - rewrite Er. cbn [fst snd ret]. apply Z.eqb_neq in Er.
    assert (Hall : always file_backs_family
                     (trace {| kobj := Some "genltest"%string;
                               trace := [Printk KERN_INFO "init end\n" [];
                                         KobjPut; SysfsRemove "ping";
                                         Printk KERN_CRIT
                                           "failed to register generic netlink family\n"
                                           [];
                                         SysfsCreate "ping";
                                         KobjCreate "genltest";
                                         Printk KERN_INFO "init start\n" []]
                                        ++ trace boot |})).
    { cbn. unfold file_backs_family. cbn. repeat split; auto; discriminate. }
    split; [intros _; exact Hall|].
    split; [intros _; split; [reflexivity|exact Hall]|intros H; contradiction].
  - rewrite Es. cbn [fst snd ret]. apply Z.eqb_neq in Es.
    assert (Hall : always file_backs_family
                     (trace {| kobj := Some "genltest"%string;
                               trace := [KobjPut;
                                         Printk KERN_ERR
                                           "unable to create sysfs file\n" [];
                                         KobjCreate "genltest";
                                         Printk KERN_INFO "init start\n" []]
                                        ++ trace boot |})).
    { cbn. unfold file_backs_family. cbn. repeat split; auto; discriminate. }
    split; [intros _; exact Hall|].
    split; [intros _; split; [reflexivity|exact Hall]|intros H; contradiction].
  - cbn [fst snd ret Z.eqb ENOMEM Z.opp].
    assert (Hall : always file_backs_family
                     (trace {| kobj := None;
                               trace := [Printk KERN_ERR
                                           "unable to create kobject\n" [];
                                         Printk KERN_INFO "init start\n" []]
                                        ++ trace boot |})).
    { cbn. unfold file_backs_family. cbn. repeat split; auto; discriminate. }
    split; [intros _; exact Hall|].
    split; [intros _; split; [reflexivity|exact Hall]
           |intros H; discriminate H].
Qed.

(** The amended C8 on a module that is loaded, sees a write of "hello" and
    a request, and is unloaded by a kernel that removes the family. *)
Lemma trigger_file_outlives_registration_witness :
  always file_backs_family
    (trace (snd (lifecycle env_ok [Write env_ok (literal "hello") 5;
                                   Request env_ok request_skb request_ping]
                           boot))).
Proof.
  destruct (trigger_file_outlives_registration env_ok
              [Write env_ok (literal "hello") 5;
               Request env_ok request_skb request_ping]) as [H _].
  apply H. reflexivity.
Defined.

(** *** Further properties of the kernel module *)

(** X1: on every path of [echo_doit] and of [echo_ping], whatever the
    kernel decides, at most one buffer is allocated, it is the fresh one,
    and it is released through exactly one of the two ways: finalized and
    handed to the transport, or freed. *)
Theorem kernel_builders_released_once env skb info buf cnt w :
  let id := fresh (trace w) in
  (exists l, snd (echo_doit env skb info w) = extend w l
             /\ (count is_alloc l = 0%nat
                 \/ (filter is_alloc l = [SkbAlloc id]
                     /\ released_once id l)))
  /\ (exists l, snd (echo_ping env buf cnt w) = extend w l
                /\ (count is_alloc l = 0%nat
                    \/ (filter is_alloc l = [SkbAlloc id]
                        /\ released_once id l))).
Proof.
  intros id. subst id. split.
  - rewrite echo_doit_cases.
    destruct (request_line_is_log info) as (fmt & args & Hl).
    unfold released_once, count.
    destruct (alloc_skb env _) as [room|];
      [destruct (room <? nlmsg_total_size GENL_HDRLEN);
       [|destruct (room <? room_for _)]|];
      eexists; (split; [reflexivity|]); rewrite Hl; cbn;
      rewrite ?count_own_id; cbn; intuition auto.
  - rewrite echo_ping_cases.
    destruct (status_line_is_log (multicast_status env)) as (lvl & fmt & Hl).
    unfold released_once, count.
    destruct (alloc_skb env _) as [room|];
      [destruct (room <? nlmsg_total_size GENL_HDRLEN);
       [|destruct (room <? room_for _)]|];
      eexists; (split; [reflexivity|]); rewrite ?Hl; cbn;
      rewrite ?count_own_id; cbn; intuition auto.
Qed.

(** X2: loading the module is all or nothing.  [init_genltest] returns 0
    exactly when the kobject, the trigger file and the registration all
    succeeded, and then the family is registered and the file exists; when
    it returns an error the family is not registered, the file does not
    exist and every kobject it created has been put. *)
Theorem init_genltest_all_or_nothing env w :
  registered (trace w) = false ->
  file_exists (trace w) = false ->
  let r := init_genltest env w in
  exists l,
    trace (snd r) = l ++ trace w
    /\ (fst r = 0 <->
        kobject_create_ok env = true /\ sysfs_create_file_ret env = 0
        /\ genl_register_family_ret env = 0)
    /\ (fst r = 0 ->
        registered (trace (snd r)) = true
        /\ file_exists (trace (snd r)) = true
        /\ kobj (snd r) = Some "genltest"%string)
    /\ (fst r <> 0 ->
        registered (trace (snd r)) = false
        /\ file_exists (trace (snd r)) = false
        /\ count is_kobj_create l = count is_kobj_put l).
Proof.
  intros Hr Hf r. subst r. rewrite init_genltest_cases.
  destruct (kobject_create_ok env);
    [destruct (sysfs_create_file_ret env =? 0) eqn:Es;
     [destruct (genl_register_family_ret env =? 0) eqn:Er|]|];
    eexists; (split; [reflexivity|]); cbn [fst snd trace kobj].
  - apply Z.eqb_eq in Es, Er. cbn. intuition congruence.
  - apply Z.eqb_eq in Es. apply Z.eqb_neq in Er. cbn. rewrite Hr.
    intuition congruence.
  - apply Z.eqb_neq in Es. cbn. rewrite Hr. intuition congruence.
  - cbn. rewrite Hr, Hf. unfold ENOMEM.
    intuition (try congruence; try discriminate).
Qed.

(** X2 on a kernel that grants everything, from the state before loading. *)
Lemma init_genltest_all_or_nothing_witness :
  exists l,
    trace (snd (init_genltest env_ok boot)) = l ++ []
    /\ (fst (init_genltest env_ok boot) = 0 <->
        kobject_create_ok env_ok = true /\ sysfs_create_file_ret env_ok = 0
        /\ genl_register_family_ret env_ok = 0)
    /\ (fst (init_genltest env_ok boot) = 0 ->
        registered (trace (snd (init_genltest env_ok boot))) = true
        /\ file_exists (trace (snd (init_genltest env_ok boot))) = true
        /\ kobj (snd (init_genltest env_ok boot)) = Some "genltest"%string)
    /\ (fst (init_genltest env_ok boot) <> 0 ->
        registered (trace (snd (init_genltest env_ok boot))) = false
        /\ file_exists (trace (snd (init_genltest env_ok boot))) = false
        /\ count is_kobj_create l = count is_kobj_put l).
Proof.
  apply (init_genltest_all_or_nothing env_ok boot); reflexivity.
Defined.

(** X3: unloading always removes the trigger file.  Whatever the state
    before and whatever the kernel answers, [exit_genltest] attempts the
    unregistration first, then removes the file, then puts the kobject, and
    afterwards the file does not exist.  The family is unregistered when
    the unregistration succeeds; when the transport refuses it for a
    registered family, the failure is only logged, the teardown goes on and
    the family stays registered.  The variable [kobj] keeps its value. *)
Theorem exit_genltest_tears_down env w :
  let w' := snd (exit_genltest env w) in
  file_exists (trace w') = false
  /\ kobj w' = kobj w
  /\ exists e,
       trace w' = Printk KERN_INFO "exit\n" [] :: KobjPut
                  :: SysfsRemove "ping" :: e :: trace w
       /\ (registered (trace w) = true ->
           genl_unregister_family_ret env = 0 ->
           e = Unregister "genltest" /\ registered (trace w') = false)
       /\ (registered (trace w) = true ->
           genl_unregister_family_ret env <> 0 ->
           e = Printk KERN_ERR
                 "failed to unregister generic netlink family\n" []
           /\ registered (trace w') = true)
       /\ (registered (trace w) = false ->
           e = Printk KERN_ERR
                 "failed to unregister generic netlink family\n" []
           /\ registered (trace w') = false).
Proof.
  intros w'. subst w'. rewrite exit_genltest_cases. cbn [snd trace kobj].
  destruct (registered (trace w)) eqn:Hr;
    [destruct (genl_unregister_family_ret env =? 0) eqn:Eu|];
    cbn [andb app registered file_exists];
    (split; [reflexivity|]); (split; [reflexivity|]);
    eexists; (split; [reflexivity|]).
  - apply Z.eqb_eq in Eu.
    split; [intros _ _; split; reflexivity|].
    split; [intros _ H; contradiction|intros H; discriminate H].
  - apply Z.eqb_neq in Eu.
    split; [intros _ H; contradiction|].
    split; [intros _ _; split; [reflexivity|exact Hr]
           |intros H; discriminate H].
  - split; [intros H; discriminate H|].
    split; [intros H; discriminate H|].
    intros _. split; [reflexivity|exact Hr].
Qed.

(** X4: the status of [echo_ping] tells what happened to the message.  It
    returns 0 only when it handed one message to the multicast primitive
    and a listener queued it; when it hands over nothing it returns
    [-ENOMEM] or [-EMSGSIZE]; it never hands over more than one message and
    never sends a unicast. *)
Theorem echo_ping_status_tells_delivery env buf cnt w :
  let r := echo_ping env buf cnt w in
  (fst r = 0 ->
   existsb is_queued (listeners env) = true
   /\ exists skb, multicasts (trace (snd r))
                  = (skb, 0, 0) :: multicasts (trace w))
  /\ (multicasts (trace (snd r)) = multicasts (trace w) ->
      fst r = - ENOMEM \/ fst r = - EMSGSIZE)
  /\ (length (multicasts (trace (snd r)))
      <= S (length (multicasts (trace w))))%nat
  /\ unicasts (trace (snd r)) = unicasts (trace w).
Proof.
  intros r. subst r. rewrite echo_ping_cases.
  destruct (status_line_is_log (multicast_status env)) as (lvl & fmt & Hl).
  destruct (alloc_skb env _) as [room|];
    [destruct (room <? nlmsg_total_size GENL_HDRLEN);
     [|destruct (room <? room_for buf)]|];
    cbn [fst snd extend trace app]; rewrite ?Hl; cbn [multicasts unicasts].
  - split; [discriminate|]. split; [auto|]. split; [lia|reflexivity].
  - split; [discriminate|]. split; [auto|]. split; [lia|reflexivity].
  - split.
    + unfold multicast_status. intros H.
      destruct (existsb is_reported (listeners env)); [discriminate|].
      destruct (existsb is_queued (listeners env)); [|discriminate].
      split; [reflexivity|]. eexists. reflexivity.
    + split; [intros H; symmetry in H; now apply not_cons_self in H|].
      split; [cbn [length]; lia|reflexivity].
  - split; [discriminate|]. split; [auto|]. split; [lia|reflexivity].
Qed.

(** X5: a write of at most 1024 bytes that hold no NUL is broadcast as it
    is.  When the buffer is allocated with room, [ping_store] returns the
    number of bytes written and hands to the multicast primitive one
    finalized ECHO message, for group 0 with port 0 and sequence number 0,
    whose MSG decodes to exactly the bytes written. *)
Theorem ping_store_small_write env (s : list byte) w room :
  nul_free s ->
  Z.of_nat (length s) <= MSG_MAX_LEN ->
  alloc_skb env (nlmsg_total_size (genlmsg_total_size (NLMSG_DEFAULT_SIZE env)))
  = Some room ->
  room_for (s ++ [x00]) <= room ->
  let r := ping_store env (s ++ [x00]) (Z.of_nat (length s)) w in
  fst r = Z.of_nat (length s)
  /\ exists skb nlh gh,
       multicasts (trace (snd r)) = (skb, 0, 0) :: multicasts (trace w)
       /\ skb_hdr skb = Some (nlh, gh)
       /\ nlmsg_pid nlh = 0 /\ nlmsg_seq nlh = 0
       /\ genl_cmd gh = GENLTEST_CMD_ECHO
       /\ msg_of skb = [None; Some s]
       /\ count (is_end (skb_id skb)) (trace (snd r))
          = S (count (is_end (skb_id skb)) (trace w)).
Proof.
  intros Hs Hlen Ha Hroom r. subst r. unfold MSG_MAX_LEN in Hlen.
  rewrite ping_store_unfold. cbn [fst snd]. unfold MSG_MAX_LEN.
  replace (Z.of_nat (length s) >? 1024) with false by lia.
  rewrite to_int_small by lia. split; [reflexivity|].
  rewrite echo_ping_cases, Ha.
  pose proof (room_for_bounds (s ++ [x00])).
  assert (0 <= strlen (s ++ [x00])) by (unfold strlen; lia).
  rewrite hdr_room.
  replace (room <? 20) with false by lia.
  replace (room <? room_for (s ++ [x00])) with false by lia.
  destruct (status_line_is_log (multicast_status env)) as (lvl & fmt & Hl).
  eexists (envelope env (fresh (trace w)) room 0 0 (s ++ [x00])), _, _.
  cbn [snd extend trace app]. rewrite Hl.
  cbn [multicasts envelope skb_hdr skb_id nlmsg_pid nlmsg_seq genl_cmd].
  do 5 (split; [reflexivity|]).
  split.
  - apply envelope_decodes; [assumption|]. unfold NLA_PAYLOAD_MAX.
    rewrite NLA_HDRLEN_eq. lia.
  - unfold count. cbn [filter is_end]. rewrite count_own_id. reflexivity.
Qed.

(** X5 at a write of "hello". *)
Lemma ping_store_small_write_witness :
  fst (ping_store env_ok (literal "hello") 5 boot) = 5
  /\ exists skb nlh gh,
       multicasts (trace (snd (ping_store env_ok (literal "hello") 5 boot)))
       = [(skb, 0, 0)]
       /\ skb_hdr skb = Some (nlh, gh)
       /\ nlmsg_pid nlh = 0 /\ nlmsg_seq nlh = 0
       /\ genl_cmd gh = GENLTEST_CMD_ECHO
       /\ msg_of skb = [None; Some (list_byte_of_string "hello")]
       /\ count (is_end (skb_id skb))
            (trace (snd (ping_store env_ok (literal "hello") 5 boot)))
          = 1%nat.
Proof.
  apply (ping_store_small_write env_ok (list_byte_of_string "hello") boot 3780).
  - repeat (constructor; [discriminate|]). constructor.
  - vm_compute. discriminate.
  - reflexivity.
  - vm_compute. discriminate.
Defined.

Lemma count_kobj_neutral (l : list event) :
  forallb neutral l = true ->
  count is_kobj_create l = 0%nat /\ count is_kobj_put l = 0%nat.
Proof.
  unfold count. induction l as [|e l IH]; [split; reflexivity|].
  cbn [forallb]. intros H. apply andb_prop in H as [He Hl].
  destruct (IH Hl) as [IH1 IH2].
  destruct e; try discriminate He; cbn; auto.
Qed.

Lemma count_app (p : event -> bool) (l t : list event) :
  count p (l ++ t) = (count p l + count p t)%nat.
Proof. unfold count. now rewrite filter_app, length_app. Qed.

(** X6: a run of the module leaves no file and no kobject behind.
    Whatever the kernel decides and whatever writes and requests are
    served, after the run (load, serve, unload; or a failed load alone) the
    trigger file does not exist and the kobject has been put as often as it
    was created.  The family is left unregistered whenever the load failed
    or the unregistration succeeded; it stays registered exactly when the
    transport refused the unregistration. *)
Theorem lifecycle_leaves_nothing env ops :
  let t := trace (snd (lifecycle env ops boot)) in
  file_exists t = false
  /\ count is_kobj_create t = count is_kobj_put t
  /\ (fst (lifecycle env ops boot) = 0 -> count is_kobj_create t = 1%nat)
  /\ (fst (lifecycle env ops boot) <> 0 -> registered t = false)
  /\ (genl_unregister_family_ret env = 0 -> registered t = false)
  /\ (fst (lifecycle env ops boot) = 0 ->
      genl_unregister_family_ret env <> 0 -> registered t = true).
Proof.
  intros t. subst t. unfold lifecycle, bind. rewrite init_genltest_cases.
  destruct (kobject_create_ok env);
    [destruct (sysfs_create_file_ret env =? 0) eqn:Es;
     [destruct (genl_register_family_ret env =? 0) eqn:Er|]|].
  - cbn [Z.eqb fst snd].
    set (w1 := {| kobj := Some "genltest"%string; trace := _ |}).
    destruct (run_ops_neutral ops w1) as (l & El & Nl).
    destruct (run_ops ops w1) as [u w2]. cbn [snd] in El. subst w2.
    rewrite exit_genltest_cases. unfold extend. cbn [kobj trace fst snd ret].
    rewrite (registered_neutral l) by assumption. subst w1.
    cbn [registered trace app boot file_exists andb].
    destruct (count_kobj_neutral l Nl) as [C1 C2].
    destruct (genl_unregister_family_ret env =? 0) eqn:Eu;
      [apply Z.eqb_eq in Eu|apply Z.eqb_neq in Eu];
      cbn [app registered];
      change (?a :: ?b :: ?c :: ?d :: l ++ ?t)
        with ([a; b; c; d] ++ l ++ t);
      rewrite !count_app, C1, C2;
      (split; [reflexivity|]); (split; [reflexivity|]);
      (split; [reflexivity|]);
      (split; [intros H; now contradiction H|]).
    + split; [reflexivity|]. intros _ H. contradiction.
    + split; [intros H; contradiction|]. intros _ _.
      cbn [app registered]. now rewrite (registered_neutral l).
  - rewrite Er. cbn [fst snd ret]. apply Z.eqb_neq in Er.
    repeat split. intros H. contradiction.
  - rewrite Es. cbn [fst snd ret]. apply Z.eqb_neq in Es.
    repeat split. intros H. contradiction.
  - cbn [fst snd ret Z.eqb ENOMEM Z.opp].
    repeat split; try (intros H; discriminate H).
Qed.

End KSFacts.

(** ** The client *)

Module USFacts.
Import Wire US WireFacts.

Lemma request_size_eq : request_size = 56.
Proof. reflexivity. Qed.

(** The four ways through [send_echo_msg] on a socket. *)
Lemma send_echo_msg_cases env id fam t :
  let mid := length (filter is_msg_alloc t) in
  send_echo_msg env (Sock id) fam t =
  match default_msg_size env with
  | None => (Val (- ENOMEM), t)
  | Some size =>
      if size <? NLMSG_HDRLEN + NLMSG_ALIGN GENL_HDRLEN then
        (Val (- EMSGSIZE), MsgAlloc mid :: t)
      else if size <? request_size then
        (Val NLE_NOMEM, MsgAlloc mid :: t)
      else
        (Val (if nl_send_ret env >=? 0 then 0 else nl_send_ret env),
         MsgFree mid :: Send id (request_of mid size fam)
         :: Stdout "message sent\n" [] :: MsgAlloc mid :: t)
  end.
Proof.
  intros mid. subst mid.
  unfold send_echo_msg, bind, nlmsg_alloc.
  destruct (default_msg_size env) as [size|]; [|reflexivity].
  unfold genlmsg_put. cbn [nm_size nm_nlh nlmsg_len].
  change (NLMSG_ALIGN (GENL_HDRLEN + 0) + nlmsg_total_size 0) with 20.
  change (NLMSG_HDRLEN + NLMSG_ALIGN GENL_HDRLEN) with 20.
  rewrite request_size_eq.
  destruct (20 >? size) eqn:E1;
    [replace (size <? 20) with true by lia; reflexivity|].
  replace (size <? 20) with false by lia.
  unfold nla_put_string, nla_put. cbn [nm_size nm_nlh nlmsg_len].
  change (NLMSG_ALIGN (nlmsg_total_size 0 + NLMSG_ALIGN (GENL_HDRLEN + 0))
          + nla_total_size
              (strlen (literal "Hello from User Space, Netlink!") + 1))
    with 56.
  destruct (56 >? size) eqn:E2;
    [replace (size <? 56) with true by lia; reflexivity|].
  replace (size <? 56) with false by lia.
  reflexivity.
Qed.

(** On its error paths after the allocation, [send_echo_msg] returns
    without freeing the message; only the path that sends frees it. *)
Lemma send_echo_msg_releases_or_leaks env id fam size :
  default_msg_size env = Some size ->
  let t := snd (send_echo_msg env (Sock id) fam []) in
  (request_size <= size -> released_once 0 t)
  /\ (size < request_size -> leaked 0 t).
Proof.
  intros Hs t. subst t. rewrite send_echo_msg_cases, Hs.
  rewrite request_size_eq.
  change (NLMSG_HDRLEN + NLMSG_ALIGN GENL_HDRLEN) with 20.
  split; intros H.
  - replace (size <? 20) with false by lia.
    replace (size <? 56) with false by lia.
    split; reflexivity.
  - destruct (size <? 20).
    + split; reflexivity.
    + replace (size <? 56) with true by lia. split; reflexivity.
Qed.

(** C5 fails on the code in the client: when [genlmsg_put] finds no room
    for the sub-header, [send_echo_msg] returns [-EMSGSIZE] and the message
    that [nlmsg_alloc] gave is never freed; when [nla_put_string] finds no
    room for the string, it returns the negated error and the message is
    not freed either. *)
Theorem send_echo_msg_leaks_on_error :
  send_echo_msg (uenv_sized 16) (Sock 0) 30 [] = (Val (- EMSGSIZE), [MsgAlloc 0])
  /\ leaked 0 (snd (send_echo_msg (uenv_sized 16) (Sock 0) 30 []))
  /\ send_echo_msg (uenv_sized 40) (Sock 0) 30 [] = (Val NLE_NOMEM, [MsgAlloc 0])
  /\ leaked 0 (snd (send_echo_msg (uenv_sized 40) (Sock 0) 30 [])).
Proof.
  split; [reflexivity|]. split.
  - apply (send_echo_msg_releases_or_leaks (uenv_sized 16) 0 30 16 eq_refl).
    rewrite request_size_eq. lia.
  - split; [reflexivity|].
    apply (send_echo_msg_releases_or_leaks (uenv_sized 40) 0 30 40 eq_refl).
    rewrite request_size_eq. lia.
Qed.

(** *** The session *)

Lemma echo_reply_handler_returns m t :
  exists r t', echo_reply_handler m t = (Val r, t').
Proof.
  unfold echo_reply_handler, nla_parse. cbn [negb Z.eqb].
  destruct (array_get _ GENLTEST_A_MSG); eexists _, _; reflexivity.
Qed.

Lemma mapM_returns (l : list message) :
  forall t, exists t', mapM_ echo_reply_handler l t = (Val tt, t').
Proof.
  induction l as [|m l IH]; intros t.
  - eexists. reflexivity.
  - cbn [mapM_]. unfold bind.
    destruct (echo_reply_handler_returns m t) as (r & t1 & E). rewrite E.
    apply IH.
Qed.

Lemma nl_recvmsgs_default_returns env id t :
  exists t', nl_recvmsgs_default env (Sock id) t = (Val 0, t').
Proof.
  unfold nl_recvmsgs_default, bind, emit.
  destruct (mapM_returns (inbox env id (length (filter (is_recv id) t)))
              (Recv id :: t)) as (t' & E).
  rewrite E. eexists. reflexivity.
Qed.

(** However many rounds the loop has made, it has not left. *)
Lemma listen_returns env id fuel :
  forall t, exists t', listen env fuel (Sock id) t = (Val tt, t').
Proof.
  induction fuel as [|fuel IH]; intros t.
  - eexists. reflexivity.
  - cbn [listen]. unfold bind.
    destruct (nl_recvmsgs_default_returns env id t) as (t1 & E). rewrite E.
    apply IH.
Qed.

Lemma send_echo_msg_returns env id fam t :
  exists r t', send_echo_msg env (Sock id) fam t = (Val r, t').
Proof.
  rewrite send_echo_msg_cases.
  destruct (default_msg_size env) as [size|];
    [destruct (size <? _); [|destruct (size <? _)]|];
    eexists _, _; reflexivity.
Qed.

Lemma conn_cases env t :
  let id := length (filter is_sock_alloc t) in
  conn env t =
  if socket_alloc_ok env id then
    if genl_connect_ret env id =? 0 then
      (Val (0, Sock id), SockConnect id :: SockAlloc id :: t)
    else (Val (genl_connect_ret env id, Sock id), SockAlloc id :: t)
  else (Fault, t).
Proof.
  intros id. subst id. unfold conn, bind, nl_socket_alloc.
  destruct (socket_alloc_ok env _); [|reflexivity].
  unfold genl_connect.
  destruct (genl_connect_ret env _ =? 0); reflexivity.
Qed.

Ltac simp :=
  cbv beta iota zeta;
  cbn [negb fst snd filter length is_sock_alloc Nat.add];
  rewrite ?Z.eqb_refl; cbn [negb]; cbv beta iota zeta.

Ltac call_returns :=
  match goal with
  | |- context [send_echo_msg ?e (Sock ?i) ?f ?t] =>
      let r := fresh "r" in let t' := fresh "t" in let E := fresh "E" in
      destruct (send_echo_msg_returns e i f t) as (r & t' & E);
      rewrite E; clear E
  | |- context [nl_recvmsgs_default ?e (Sock ?i) ?t] =>
      let t' := fresh "t" in let E := fresh "E" in
      destruct (nl_recvmsgs_default_returns e i t) as (t' & E);
      rewrite E; clear E
  | |- context [listen ?e ?n (Sock ?i) ?t] =>
      let t' := fresh "t" in let E := fresh "E" in
      destruct (listen_returns e i n t) as (t' & E);
      rewrite E; clear E
  end.

Ltac open_main :=
  unfold main, out, disconn, set_cb, nl_close, nl_socket_free,
    genl_ctrl_resolve, genl_ctrl_resolve_grp, nl_socket_disable_seq_check,
    nl_socket_add_membership, nl_socket_modify_cb, prerr, printf, emit,
    bind, ret, fault.

Ltac use_facts :=
  repeat (progress (repeat match goal with H : _ = _ |- _ => rewrite H end;
                    simp)).

(** Both sockets connected, the program goes on to the resolution. *)
Ltac connect_both :=
  open_main; rewrite conn_cases; simp; use_facts;
  rewrite conn_cases; simp; use_facts.

Ltac split_steps :=
  repeat match goal with
         | H : _ && _ = true |- _ => apply andb_prop in H; destruct H
         end;
  repeat match goal with
         | H : (_ =? _) = true |- _ => apply Z.eqb_eq in H
         | H : (0 <=? ?x) = true |- _ =>
             assert ((x <? 0) = false) by lia; clear H
         | H : (0 <=? ?x) = false |- _ =>
             assert ((x <? 0) = true) by lia; clear H
         end.

Lemma main_second_connect_fails env fuel :
  socket_alloc_ok env 0 = true -> genl_connect_ret env 0 = 0 ->
  socket_alloc_ok env 1 = true -> genl_connect_ret env 1 <> 0 ->
  fst (main env fuel []) = Val (Some (genl_connect_ret env 1)).
Proof.
  intros H1 H2 H3 H4. apply Z.eqb_neq in H4.
  connect_both. reflexivity.
Qed.

Lemma main_join_fails env fuel :
  connects env = true -> resolves env = true -> joins env = false ->
  fst (main env fuel []) = Val (Some 1).
Proof.
  unfold connects, resolves, joins. intros Hc Hr Hj. split_steps.
  connect_both. use_facts. reflexivity.
Qed.

Lemma main_first_callback_fails env fuel :
  connects env = true -> resolves env = true -> joins env = true ->
  modify_cb_ret env 0 <> 0 ->
  fst (main env fuel []) = Val (Some (modify_cb_ret env 0)).
Proof.
  unfold connects, resolves, joins. intros Hc Hr Hj Hi. split_steps.
  apply Z.eqb_neq in Hi.
  connect_both. use_facts. reflexivity.
Qed.

Lemma main_second_callback_fails env fuel :
  connects env = true -> resolves env = true -> joins env = true ->
  modify_cb_ret env 0 = 0 -> modify_cb_ret env 1 <> 0 ->
  fst (main env fuel []) = Val (Some (modify_cb_ret env 1)).
Proof.
  unfold connects, resolves, joins. intros Hc Hr Hj Hi Hi'. split_steps.
  apply Z.eqb_neq in Hi'.
  connect_both. use_facts. reflexivity.
Qed.

(** Once the set-up is done the program is in its receive loops, whether
    or not the request went out. *)
Lemma main_listens env fuel :
  connects env = true -> resolves env = true -> joins env = true ->
  installs env = true ->
  fst (main env fuel []) = Val None.
Proof.
  unfold connects, resolves, joins, installs.
  intros Hc Hr Hj Hi. split_steps.
  connect_both. use_facts.
  call_returns.
  destruct (r =? 0); simp; repeat (call_returns; simp); reflexivity.
Qed.

(** When a resolution fails, the status is still the 0 that the second
    connect left in [ret]. *)
Lemma main_resolve_fails env fuel :
  connects env = true -> resolves env = false ->
  fst (main env fuel []) = Val (Some 0).
Proof.
  unfold connects, resolves. intros Hc Hr. split_steps.
  apply andb_false_iff in Hr as [Hr|Hr]; split_steps.
  - connect_both. reflexivity.
  - connect_both.
    destruct (genl_ctrl_resolve_ret env <? 0); simp; use_facts; reflexivity.
Qed.

(** When the first connect fails, [mcsk] is still unassigned at [out]. *)
Lemma main_first_connect_fails env fuel :
  socket_alloc_ok env 0 = true -> genl_connect_ret env 0 <> 0 ->
  fst (main env fuel []) = Fault.
Proof.
  intros H1 H2. apply Z.eqb_neq in H2.
  open_main. rewrite conn_cases. simp. use_facts. reflexivity.
Qed.

(** C7, as stated, fails: when the send step fails, the program reports it
    and goes on to its receive loops; it does not exit with status 1,
    however long it runs. *)
Lemma main_keeps_listening_after_failed_send :
  step_fails uenv_send_fails = true
  /\ sends uenv_send_fails = false
  /\ forall fuel, fst (main uenv_send_fails fuel []) = Val None.
Proof.
  split; [reflexivity|]. split; [reflexivity|].
  intros fuel. apply main_listens; reflexivity.
Qed.

(** C7 (amended): with the first socket connected and the second one
    allocated, the program exits with the library's non-zero code when the
    second connect or the install of a callback fails and with 1 when the
    join fails; once connect, resolution, join and install have succeeded
    it does not exit, whether or not the send succeeded: after any number
    of rounds it is still in the notification loop, which only an
    interruption from outside ends. *)
Theorem main_exit_status env fuel :
  socket_alloc_ok env 0 = true -> genl_connect_ret env 0 = 0 ->
  socket_alloc_ok env 1 = true ->
  (genl_connect_ret env 1 <> 0 ->
   fst (main env fuel []) = Val (Some (genl_connect_ret env 1)))
  /\ (genl_connect_ret env 1 = 0 -> resolves env = true ->
      (joins env = false -> fst (main env fuel []) = Val (Some 1))
      /\ (joins env = true -> modify_cb_ret env 0 <> 0 ->
          fst (main env fuel []) = Val (Some (modify_cb_ret env 0)))
      /\ (joins env = true -> modify_cb_ret env 0 = 0 ->
          modify_cb_ret env 1 <> 0 ->
          fst (main env fuel []) = Val (Some (modify_cb_ret env 1)))
      /\ (joins env = true -> installs env = true ->
          fst (main env fuel []) = Val None)).
Proof.
  intros H1 H2 H3. split.
  - intros H4. now apply main_second_connect_fails.
  - intros H4 Hr.
    assert (Hc : connects env = true).
    { unfold connects. rewrite H1, H2, H3, H4. reflexivity. }
    split; [|split; [|split]].
    + intros Hj. now apply main_join_fails.
    + intros Hj Hi. now apply main_first_callback_fails.
    + intros Hj Hi Hi'. now apply main_second_callback_fails.
    + intros Hj Hi. now apply main_listens.
Qed.

(** The amended C7 on a host whose second socket fails to connect. *)
Lemma main_exit_status_witness :
  fst (main uenv_no_second_socket 3 []) = Val (Some (- NLE_NOMEM)).
Proof.
  destruct (main_exit_status uenv_no_second_socket 3 eq_refl eq_refl eq_refl)
    as [H _].
  apply H. vm_compute. discriminate.
Defined.

(** *** Reception *)

(** The callback prints the string of a message that carries it under MSG. *)
Lemma echo_reply_handler_prints (m : message) (s rest : list byte) t :
  msg_attrs m = encode GENLTEST_A_MSG (s ++ x00 :: rest) ->
  nlmsg_len (msg_nlh m)
  = NLMSG_HDRLEN + GENL_HDRLEN + Z.of_nat (length (msg_attrs m)) ->
  nul_free s ->
  Z.of_nat (length s) + 1 <= NLA_PAYLOAD_MAX ->
  echo_reply_handler m t
  = (Val NL_OK, Stdout "message received: %s\n" [Str s] :: t).
Proof.
  intros Ha Hl Hs Hlen.
  destruct (parse_single GENLTEST_A_MSG s rest Hs Hlen) as [Hp Hg];
    [unfold GENLTEST_A_MSG, GENLTEST_A_MAX, __GENLTEST_A_MAX; lia|].
  unfold echo_reply_handler, genlmsg_attrdata, genlmsg_attrlen.
  change (Z.to_nat (NLMSG_ALIGN 0)) with 0%nat. cbn [skipn].
  replace (nlmsg_len (msg_nlh m) - GENL_HDRLEN - NLMSG_HDRLEN - NLMSG_ALIGN 0)
    with (Z.of_nat (length (msg_attrs m)))
    by (rewrite Hl; change (NLMSG_ALIGN 0) with 0; lia).
  rewrite Ha, Hp. cbn [negb Z.eqb].
  change (Z.to_nat (GENLTEST_A_MAX + 1)) with 2%nat.
  change (Z.to_nat GENLTEST_A_MSG) with 1%nat.
  cbn [repeat array_set]. unfold array_get.
  change (Z.to_nat GENLTEST_A_MSG) with 1%nat. cbn [nth].
  rewrite Hg. reflexivity.
Qed.

(** The reply of the kernel module, once on the wire, is what the callback
    of the client prints. *)
Lemma reply_reaches_callback env id room portid seq t :
  exists m,
    KS.on_wire (KS.envelope env id room portid seq
                  (literal "Hello from Kernel Space, Netlink!")) = Some m
    /\ echo_reply_handler m t
       = (Val NL_OK, Stdout "message received: %s\n" [Str KS.hello] :: t).
Proof.
  eexists. split; [reflexivity|].
  apply (echo_reply_handler_prints _ KS.hello []).
  - reflexivity.
  - reflexivity.
  - unfold KS.hello. apply Forall_forall. intros b Hb.
    intros ->. vm_compute in Hb. intuition discriminate.
  - vm_compute. discriminate.
Qed.

(** C4: for every string [s] (bytes without NUL, followed in memory by its
    terminator) whose payload, terminator included, fits the 16-bit length
    of a record, decoding the record that encodes [s] under MSG gives the
    table with [s] under MSG and nothing under the other id; the callback
    of the client, given a message with these attributes, prints [s]. *)
Theorem codec_round_trip (s rest : list byte) :
  nul_free s ->
  Z.of_nat (length s) + 1 <= NLA_PAYLOAD_MAX ->
  decode (encode GENLTEST_A_MSG (s ++ x00 :: rest)) = [None; Some s]
  /\ forall nlh gnlh t,
       nlmsg_len nlh
       = NLMSG_HDRLEN + GENL_HDRLEN
         + nla_total_size (Z.of_nat (length s) + 1) ->
       echo_reply_handler
         {| msg_nlh := nlh; msg_gnlh := gnlh;
            msg_attrs := encode GENLTEST_A_MSG (s ++ x00 :: rest) |} t
       = (Val NL_OK, Stdout "message received: %s\n" [Str s] :: t).
Proof.
  intros Hs Hlen. split; [now apply decode_encode|].
  intros nlh gnlh t Hl.
  apply (echo_reply_handler_prints _ s rest); cbn [msg_attrs msg_nlh];
    [reflexivity | | assumption | assumption].
  rewrite encode_length by assumption. exact Hl.
Qed.

(** C4 at the string "ping". *)
Lemma codec_round_trip_witness :
  decode (encode GENLTEST_A_MSG (literal "ping"))
  = [None; Some (list_byte_of_string "ping")].
Proof.
  apply (codec_round_trip (list_byte_of_string "ping") []).
  - repeat (constructor; [discriminate|]). constructor.
  - vm_compute. discriminate.
Defined.

(** *** Further properties of the client *)

(** X7: when the message has room, [send_echo_msg] sends exactly one
    request, an ECHO of version 1 for the family it was given, whose MSG
    decodes to "Hello from User Space, Netlink!"; it then frees the message
    and returns 0 for any number of bytes sent and the negative code of
    [nl_send_auto] otherwise. *)
Theorem send_echo_msg_sends_and_frees env id fam t size :
  default_msg_size env = Some size ->
  request_size <= size ->
  let r := send_echo_msg env (Sock id) fam t in
  fst r = Val (if nl_send_ret env >=? 0 then 0 else nl_send_ret env)
  /\ exists msg,
       snd r = MsgFree (nm_id msg) :: Send id msg
               :: Stdout "message sent\n" [] :: MsgAlloc (nm_id msg) :: t
       /\ nlmsg_type (nm_nlh msg) = fam
       /\ nlmsg_len (nm_nlh msg)
          = NLMSG_HDRLEN + GENL_HDRLEN + Z.of_nat (length (nm_attrs msg))
       /\ nm_gnlh msg = Some {| genl_cmd := GENLTEST_CMD_ECHO;
                                genl_version := GENLTEST_GENL_VERSION;
                                genl_reserved := 0 |}
       /\ decode (nm_attrs msg)
          = [None; Some (list_byte_of_string "Hello from User Space, Netlink!")].
Proof.
  intros Hs Hsize r. subst r. rewrite send_echo_msg_cases, Hs.
  rewrite request_size_eq in *.
  change (NLMSG_HDRLEN + NLMSG_ALIGN GENL_HDRLEN) with 20.
  replace (size <? 20) with false by lia.
  replace (size <? 56) with false by lia.
  cbn [fst snd]. split; [reflexivity|].
  eexists (request_of _ size fam).
  cbn [request_of nm_id nm_nlh nm_gnlh nm_attrs nlmsg_type nlmsg_len].
  split; [reflexivity|]. split; [reflexivity|].
  split; [vm_compute; reflexivity|]. split; [reflexivity|].
  vm_compute. reflexivity.
Qed.

(** X7 on a host where sending fails. *)
Lemma send_echo_msg_sends_and_frees_witness :
  fst (send_echo_msg uenv_send_fails (Sock 0) 30 []) = Val (- NLE_NOMEM)
  /\ exists msg,
       snd (send_echo_msg uenv_send_fails (Sock 0) 30 [])
       = [MsgFree (nm_id msg); Send 0 msg; Stdout "message sent\n" [];
          MsgAlloc (nm_id msg)]
       /\ nlmsg_type (nm_nlh msg) = 30
       /\ nlmsg_len (nm_nlh msg)
          = NLMSG_HDRLEN + GENL_HDRLEN + Z.of_nat (length (nm_attrs msg))
       /\ nm_gnlh msg = Some {| genl_cmd := GENLTEST_CMD_ECHO;
                                genl_version := GENLTEST_GENL_VERSION;
                                genl_reserved := 0 |}
       /\ decode (nm_attrs msg)
          = [None; Some (list_byte_of_string "Hello from User Space, Netlink!")].
Proof.
  apply (send_echo_msg_sends_and_frees uenv_send_fails 0 30 [] 4096);
    [reflexivity | vm_compute; discriminate].
Defined.

(** X8: every reply that [echo_doit] hands to the send primitive is a
    message that the callback of the client accepts: it carries the
    sequence number of the request, and [echo_reply_handler] prints exactly
    "Hello from Kernel Space, Netlink!" for it and returns [NL_OK]. *)
Theorem echo_reply_is_printed_by_client env skb info w reply port t :
  KS.unicasts (KS.trace (snd (KS.echo_doit env skb info w)))
  = (reply, port) :: KS.unicasts (KS.trace w) ->
  exists m,
    KS.on_wire reply = Some m
    /\ nlmsg_seq (msg_nlh m) = KS.snd_seq info
    /\ echo_reply_handler m t
       = (Val NL_OK, Stdout "message received: %s\n" [Str KS.hello] :: t).
Proof.
  intros H.
  destruct (KSFacts.echo_doit_unicasts env skb info w)
    as [(room & _ & _ & _ & U) | (_ & U)];
    [|rewrite U in H; now apply KSFacts.not_cons_self in H].
  rewrite U in H. injection H as <- _.
  destruct (reply_reaches_callback env (KS.fresh (KS.trace w)) room
              (KS.snd_portid info) (KS.snd_seq info) t) as (m & Hm & Hh).
  exists m. split; [exact Hm|]. split; [|exact Hh].
  cbn in Hm. injection Hm as <-. reflexivity.
Qed.

(** X8 at the request with MSG="ping" and sequence number 7. *)
Lemma echo_reply_is_printed_by_client_witness :
  exists m,
    nlmsg_seq (msg_nlh m) = 7
    /\ echo_reply_handler m []
       = (Val NL_OK, [Stdout "message received: %s\n" [Str KS.hello]]).
Proof.
  destruct (echo_reply_is_printed_by_client KS.env_ok KS.request_skb
              KS.request_ping KS.boot _ _ [] eq_refl) as (m & _ & Hq & Hh).
  exists m. split; [exact Hq|exact Hh].
Defined.

(** X9: what a subscriber prints for a small write is what was written.
    For a write of at most 1024 bytes that hold no NUL, when the buffer is
    allocated with room, the message that [ping_store] broadcasts is one
    for which [echo_reply_handler] prints exactly the bytes written and
    returns [NL_OK]. *)
Theorem small_write_is_printed_by_subscriber env (s : list byte) w room t :
  nul_free s ->
  Z.of_nat (length s) <= KS.MSG_MAX_LEN ->
  KS.alloc_skb env (nlmsg_total_size
                      (genlmsg_total_size (KS.NLMSG_DEFAULT_SIZE env)))
  = Some room ->
  KS.room_for (s ++ [x00]) <= room ->
  exists skb m,
    KS.multicasts (KS.trace (snd (KS.ping_store env (s ++ [x00])
                                    (Z.of_nat (length s)) w)))
    = (skb, 0, 0) :: KS.multicasts (KS.trace w)
    /\ KS.on_wire skb = Some m
    /\ echo_reply_handler m t
       = (Val NL_OK, Stdout "message received: %s\n" [Str s] :: t).
Proof.
  intros Hs Hlen Ha Hroom. unfold KS.MSG_MAX_LEN in Hlen.
  rewrite KSFacts.ping_store_unfold. cbn [snd].
  destruct (KSFacts.echo_ping_multicasts env (s ++ [x00])
              (to_int (if Z.of_nat (length s) >? KS.MSG_MAX_LEN
                       then KS.MSG_MAX_LEN else Z.of_nat (length s)))
              w room Ha Hroom) as [Hm _].
  eexists _, _. split; [exact Hm|]. split; [reflexivity|].
  apply (echo_reply_handler_prints _ s []).
  - reflexivity.
  - reflexivity.
  - assumption.
  - unfold NLA_PAYLOAD_MAX. rewrite NLA_HDRLEN_eq. lia.
Qed.

(** X9 at a write of "hello". *)
Lemma small_write_is_printed_by_subscriber_witness :
  exists skb m,
    KS.multicasts (KS.trace (snd (KS.ping_store KS.env_ok (literal "hello")
                                    5 KS.boot)))
    = [(skb, 0, 0)]
    /\ KS.on_wire skb = Some m
    /\ echo_reply_handler m []
       = (Val NL_OK,
          [Stdout "message received: %s\n"
                  [Str (list_byte_of_string "hello")]]).
Proof.
  apply (small_write_is_printed_by_subscriber KS.env_ok
           (list_byte_of_string "hello") KS.boot 3780 []).
  - repeat (constructor; [discriminate|]). constructor.
  - vm_compute. discriminate.
  - reflexivity.
  - vm_compute. discriminate.
Defined.




Lemma land_type_mask (a : Z) :
  0 <= a <= NLA_TYPE_MASK -> Z.land a NLA_TYPE_MASK = a.
Proof.
  intros H. unfold NLA_TYPE_MASK in *. change 16383 with (Z.ones 14).
  rewrite Z.land_ones by lia. apply Z.mod_small.
  change (2 ^ 14) with 16384. lia.
Qed.

(** X11: attributes are looked up by id.  A message whose only record is a
    string under an id other than MSG, be it the unspecified id 0 or one
    above the family's maximum, is skipped with "msg attribute missing":
    the string is not printed. *)
Theorem echo_reply_handler_ignores_other_ids (m : message) (a : Z)
    (s rest : list byte) t :
  0 <= a <= NLA_TYPE_MASK -> a <> GENLTEST_A_MSG ->
  nul_free s -> Z.of_nat (length s) + 1 <= NLA_PAYLOAD_MAX ->
  msg_attrs m = encode a (s ++ x00 :: rest) ->
  nlmsg_len (msg_nlh m)
  = NLMSG_HDRLEN + GENL_HDRLEN + Z.of_nat (length (msg_attrs m)) ->
  echo_reply_handler m t
  = (Val NL_SKIP, Stderr "msg attribute missing from message\n" [] :: t).
Proof.
  intros Ha Hne Hs Hlen Hm Hl.
  unfold NLA_PAYLOAD_MAX in Hlen. rewrite NLA_HDRLEN_eq in Hlen.
  set (n := Z.of_nat (length s)) in *.
  set (buf := msg_attrs m) in *.
  assert (Hbuf : buf = put_u16 (4 + (n + 1)) ++ put_u16 a
                       ++ (s ++ [x00])
                       ++ repeat x00 (Z.to_nat (nla_padlen (n + 1)))).
  { rewrite Hm. subst n. unfold encode, nlattr_bytes.
    rewrite strlen_terminated by assumption.
    unfold nla_attr_size. rewrite NLA_HDRLEN_eq.
    now rewrite firstn_terminated. }
  assert (Hlb : Z.of_nat (length buf) = NLA_ALIGN (4 + (n + 1))).
  { rewrite Hm, encode_length by assumption. fold n.
    unfold nla_total_size, nla_attr_size. now rewrite NLA_HDRLEN_eq. }
  pose proof (NLA_ALIGN_bounds (4 + (n + 1))) as Hal.
  assert (Hnl : nla_len buf = 4 + (n + 1)).
  { unfold nla_len. rewrite Hbuf, get_put_u16. apply Z.mod_small. lia. }
  assert (Hnt : nla_type buf = a).
  { unfold nla_type. rewrite Hbuf. unfold put_u16 at 1. cbn [app skipn].
    rewrite get_put_u16. unfold NLA_TYPE_MASK in Ha.
    rewrite Z.mod_small by lia. now apply land_type_mask. }
  unfold echo_reply_handler, nla_parse, genlmsg_attrdata, genlmsg_attrlen.
  change (Z.to_nat (NLMSG_ALIGN 0)) with 0%nat. cbn [skipn]. fold buf.
  replace (nlmsg_len (msg_nlh m) - GENL_HDRLEN - NLMSG_HDRLEN - NLMSG_ALIGN 0)
    with (Z.of_nat (length buf))
    by (rewrite Hl; change (NLMSG_ALIGN 0) with 0; lia).
  destruct (Z.to_nat (Z.of_nat (length buf))) as [|fuel] eqn:Hf; [lia|].
  cbn [nla_for_each_attr].
  assert (Hok : nla_ok buf (Z.of_nat (length buf)) = true).
  { unfold nla_ok. rewrite Hnl, Hlb.
    apply andb_true_intro; split; [apply andb_true_intro; split|]; lia. }
  rewrite Hok, Hnt. unfold nla_next. rewrite Hnl, Hlb.
  rewrite nla_for_each_attr_done by lia.
  change (Z.to_nat (GENLTEST_A_MAX + 1)) with 2%nat. cbn [repeat].
  unfold GENLTEST_A_MSG, GENLTEST_A_MAX, __GENLTEST_A_MAX in *.
  change (2 - 1) with 1.
  destruct (a >? 1) eqn:E.
  - reflexivity.
  - assert (a = 0) as -> by lia. reflexivity.
Qed.

(** X11 at a message that carries "ping" under the id 2. *)
Lemma echo_reply_handler_ignores_other_ids_witness :
  echo_reply_handler
    {| msg_nlh := {| nlmsg_len := 32; nlmsg_type := 30; nlmsg_flags := 0;
                     nlmsg_seq := 0; nlmsg_pid := 0 |};
       msg_gnlh := {| genl_cmd := GENLTEST_CMD_ECHO;
                      genl_version := GENLTEST_GENL_VERSION;
                      genl_reserved := 0 |};
       msg_attrs := encode 2 (literal "ping") |} []
  = (Val NL_SKIP, [Stderr "msg attribute missing from message\n" []]).
Proof.
  apply (echo_reply_handler_ignores_other_ids _ 2
           (list_byte_of_string "ping") []).
  - vm_compute. split; discriminate.
  - discriminate.
  - repeat (constructor; [discriminate|]). constructor.
  - vm_compute. discriminate.
  - reflexivity.
  - reflexivity.
Defined.

(** X12: [conn] gives the allocated socket to its caller also when the
    connect fails, and returns what [genl_connect] answered; a [disconn] of
    that socket then closes it and frees it, in this order, whether or not
    it was connected. *)
Theorem conn_then_disconn_releases env t :
  let id := length (filter is_sock_alloc t) in
  socket_alloc_ok env id = true ->
  fst (conn env t) = Val (genl_connect_ret env id, Sock id)
  /\ (' (r, sk) <- conn env ;; disconn sk)%U t
     = (Val tt,
        SockFree id :: SockClose id
        :: (if genl_connect_ret env id =? 0 then [SockConnect id] else [])
        ++ SockAlloc id :: t).
Proof.
  intros id H. subst id. unfold bind. rewrite conn_cases, H.
  destruct (genl_connect_ret env _ =? 0) eqn:E.
  - apply Z.eqb_eq in E. rewrite E. split; reflexivity.
  - split; reflexivity.
Qed.

(** X12 for the second socket of a host where it fails to connect. *)
Lemma conn_then_disconn_releases_witness :
  fst (conn uenv_no_second_socket [SockConnect 0; SockAlloc 0])
  = Val (- NLE_NOMEM, Sock 1)
  /\ (' (r, sk) <- conn uenv_no_second_socket ;; disconn sk)%U
       [SockConnect 0; SockAlloc 0]
     = (Val tt, [SockFree 1; SockClose 1; SockAlloc 1; SockConnect 0;
                 SockAlloc 0]).
Proof.
  apply (conn_then_disconn_releases uenv_no_second_socket
           [SockConnect 0; SockAlloc 0]).
  reflexivity.
Defined.

(** What a round of reception adds to the trace. *)
Lemma echo_reply_handler_trace m t :
  exists r e, echo_reply_handler m t = (Val r, e :: t)
              /\ is_reception e = true.
Proof.
  unfold echo_reply_handler, nla_parse. cbn [negb Z.eqb].
  destruct (array_get _ GENLTEST_A_MSG); eexists _, _; split; reflexivity.
Qed.

Lemma mapM_trace (l : list message) :
  forall t, exists l', mapM_ echo_reply_handler l t = (Val tt, l' ++ t)
                       /\ forallb is_reception l' = true.
Proof.
  induction l as [|m l IH]; intros t.
  - exists []. split; reflexivity.
  - cbn [mapM_]. unfold bind.
    destruct (echo_reply_handler_trace m t) as (r & e & E & He). rewrite E.
    destruct (IH (e :: t)) as (l' & E' & Hl'). rewrite E'.
    exists (l' ++ [e]). rewrite <- app_assoc. split; [reflexivity|].
    rewrite forallb_app, Hl'. cbn. now rewrite He.
Qed.

Lemma nl_recvmsgs_default_trace env id t :
  exists l, nl_recvmsgs_default env (Sock id) t = (Val 0, l ++ t)
            /\ forallb is_reception l = true.
Proof.
  unfold nl_recvmsgs_default, bind, emit.
  destruct (mapM_trace (inbox env id (length (filter (is_recv id) t)))
              (Recv id :: t)) as (l & E & Hl).
  rewrite E. exists (l ++ [Recv id]). rewrite <- app_assoc.
  split; [reflexivity|]. rewrite forallb_app, Hl. reflexivity.
Qed.

Lemma listen_trace env id fuel :
  forall t, exists l, listen env fuel (Sock id) t = (Val tt, l ++ t)
                      /\ forallb is_reception l = true.
Proof.
  induction fuel as [|fuel IH]; intros t.
  - exists []. split; reflexivity.
  - cbn [listen]. unfold bind.
    destruct (nl_recvmsgs_default_trace env id t) as (l1 & E & H1). rewrite E.
    destruct (IH (l1 ++ t)) as (l2 & E2 & H2). rewrite E2.
    exists (l2 ++ l1). rewrite <- app_assoc. split; [reflexivity|].
    now rewrite forallb_app, H1, H2.
Qed.

Ltac call_traces :=
  match goal with
  | |- context [nl_recvmsgs_default ?e (Sock ?i) ?t] =>
      let l := fresh "l" in let E := fresh "E" in let H := fresh "Hl" in
      destruct (nl_recvmsgs_default_trace e i t) as (l & E & H);
      rewrite E; clear E
  | |- context [listen ?e ?n (Sock ?i) ?t] =>
      let l := fresh "l" in let E := fresh "E" in let H := fresh "Hl" in
      destruct (listen_trace e i n t) as (l & E & H);
      rewrite E; clear E
  end.

(** X13: the client keeps two sessions apart.  When every step succeeds,
    [main] connects two sockets, turns the sequence check off on the second
    and joins the resolved group with it, installs the callback on both,
    sends exactly one ECHO request, for the resolved family, on the first
    and frees it; everything it does afterwards, for any number of rounds
    of the loop, is reception. *)
Theorem main_uses_two_sessions env fuel size :
  connects env = true -> resolves env = true -> joins env = true ->
  installs env = true ->
  default_msg_size env = Some size -> request_size <= size ->
  0 <= nl_send_ret env ->
  exists l,
    forallb is_reception l = true
    /\ snd (main env fuel [])
       = l ++ [Stdout "listening for messages\n" []; MsgFree 0;
               Send 0 (request_of 0 size (genl_ctrl_resolve_ret env));
               Stdout "message sent\n" []; MsgAlloc 0; CbSet 1; CbSet 0;
               Join 1 (genl_ctrl_resolve_grp_ret env); SeqCheckOff 1;
               SockConnect 1; SockAlloc 1; SockConnect 0; SockAlloc 0].
Proof.
  unfold connects, resolves, joins, installs.
  intros Hc Hr Hj Hi Hs Hsize Hsend. split_steps.
  connect_both. use_facts.
  rewrite send_echo_msg_cases. use_facts.
  rewrite request_size_eq in *.
  change (NLMSG_HDRLEN + NLMSG_ALIGN GENL_HDRLEN) with 20.
  replace (size <? 20) with false by lia.
  replace (size <? 56) with false by lia.
  replace (nl_send_ret env >=? 0) with true by lia.
  simp. call_traces. simp. call_traces. simp.
  exists (l0 ++ l). rewrite <- app_assoc. split; [|reflexivity].
  now rewrite forallb_app, Hl, Hl0.
Qed.

(** X13 on the host where every step succeeds, after two rounds. *)
Lemma main_uses_two_sessions_witness :
  exists l,
    forallb is_reception l = true
    /\ snd (main uenv_ok 2 [])
       = l ++ [Stdout "listening for messages\n" []; MsgFree 0;
               Send 0 (request_of 0 4096 30);
               Stdout "message sent\n" []; MsgAlloc 0; CbSet 1; CbSet 0;
               Join 1 5; SeqCheckOff 1;
               SockConnect 1; SockAlloc 1; SockConnect 0; SockAlloc 0].
Proof.
  apply (main_uses_two_sessions uenv_ok 2 4096);
    try reflexivity; vm_compute; discriminate.
Defined.

(** X14: with the first socket connected and the second one allocated,
    whenever [main] leaves through [out] it has reported an error on the
    error stream, then closed and freed the first socket and then the
    second, each once; and it has sent nothing. *)
Theorem main_exit_closes_both_sockets env fuel r :
  socket_alloc_ok env 0 = true -> genl_connect_ret env 0 = 0 ->
  socket_alloc_ok env 1 = true ->
  fst (main env fuel []) = Val (Some r) ->
  exists fmt args l,
    snd (main env fuel [])
    = SockFree 1 :: SockClose 1 :: SockFree 0 :: SockClose 0
      :: Stderr fmt args :: l ++ [SockAlloc 1; SockConnect 0; SockAlloc 0]
    /\ filter is_send l = []
    /\ (count (is_sock_close 0) l + count (is_sock_free 0) l
        + count (is_sock_close 1) l + count (is_sock_free 1) l = 0)%nat.
Proof.
  intros H1 H2 H3.
  destruct (genl_connect_ret env 1 =? 0) eqn:E1.
  2: { connect_both. intros _. eexists _, _, []. repeat split. }
  apply Z.eqb_eq in E1.
  destruct (genl_ctrl_resolve_ret env <? 0) eqn:E2.
  { connect_both. intros _. eexists _, _, [_]. repeat split. }
  destruct (genl_ctrl_resolve_grp_ret env <? 0) eqn:E3.
  { connect_both. intros _. eexists _, _, [_; _]. repeat split. }
  destruct (add_membership_ret env <? 0) eqn:E4.
  { connect_both. intros _. eexists _, _, [_; _]. repeat split. }
  destruct (modify_cb_ret env 0 =? 0) eqn:E5.
  2: { connect_both. intros _. eexists _, _, [_; _; _]. repeat split. }
  destruct (modify_cb_ret env 1 =? 0) eqn:E6.
  2: { connect_both. intros _. eexists _, _, [_; _; _; _]. repeat split. }
  intros H. rewrite main_listens in H; [discriminate| | | |].
  - unfold connects. rewrite H1, H2, H3, E1. reflexivity.
  - unfold resolves. apply andb_true_intro. split; lia.
  - unfold joins. lia.
  - unfold installs. now rewrite E5, E6.
Qed.

(** X14 on a host whose second socket fails to connect. *)
Lemma main_exit_closes_both_sockets_witness :
  exists fmt args l,
    snd (main uenv_no_second_socket 3 [])
    = SockFree 1 :: SockClose 1 :: SockFree 0 :: SockClose 0
      :: Stderr fmt args :: l ++ [SockAlloc 1; SockConnect 0; SockAlloc 0]
    /\ filter is_send l = []
    /\ (count (is_sock_close 0) l + count (is_sock_free 0) l
        + count (is_sock_close 1) l + count (is_sock_free 1) l = 0)%nat.
Proof.
  apply (main_exit_closes_both_sockets uenv_no_second_socket 3 (- NLE_NOMEM));
    reflexivity.
Defined.

End USFacts.
